(** * build.py: assembling the guide from Markdown sources

    A shallow embedding of [build.py], the build script of the
    AI Security Architecture Guide.  The script reads an ordered list of
    Markdown files, converts each one to an HTML fragment, concatenates the
    fragments with a cover page and a table of contents, and hands the
    resulting document to a headless browser that prints it to PDF.

    Modelling choices.
    - Python [str] values are [string]s.  The files are UTF-8 text and both
      checkbox tokens are ASCII, so replacing them byte-wise or code point-wise
      gives the same text.
    - A [pathlib.Path] is the list of its components; [dir / name] parses
      [name] into components as [pathlib] does and appends them.
    - The file system is a finite map from paths to nodes.
    - [print], file access and the browser are effects on an explicit
      [World]; a Python exception is the [Raise] outcome of a computation.
    - [markdown.markdown] and the Playwright browser are external: the first
      is a function parameter, the second a record that says which browser
      call fails and what the printed PDF is. *)

From Stdlib Require Import Ascii.
From stdpp Require Import gmap strings list.

(** ** Strings *)

Module Str.

(** The double quote and the line feed, which the literals below splice in. *)
Definition dq : string := String "034"%char "".
Definition nl : string := String "010"%char "".

Fixpoint drop (n : nat) (s : string) : string :=
  match n, s with
  | O, _ => s
  | S _, EmptyString => EmptyString
  | S k, String _ s' => drop k s'
  end.

(** [str.join] with the empty separator: [sep.join(items)] for [sep = ""]. *)
Fixpoint join (items : list string) : string :=
  match items with
  | [] => ""
  | x :: rest => x +:+ join rest
  end.

(** [old in s] for strings: [old] occurs somewhere in [s]. *)
Definition occurs (old s : string) : Prop :=
  ∃ a b, s = a +:+ old +:+ b.

(** [s.startswith(old)] *)
Fixpoint startswith (s old : string) {struct old} : bool :=
  match old with
  | EmptyString => true
  | String a old' =>
      match s with
      | EmptyString => false
      | String b s' => if Ascii.eqb a b then startswith s' old' else false
      end
  end.

(** *** [str.replace]

    [s.replace(old, new)] scans [s] from the left.  Where [old] starts it
    emits [new] and jumps over the occurrence, elsewhere it copies one
    character.  [skip] counts the characters of an occurrence that are still
    to be jumped over. *)
Fixpoint replace_scan (old new : string) (skip : nat) (s : string) : string :=
  match s with
  | EmptyString => EmptyString
  | String c s' =>
      match skip with
      | S k => replace_scan old new k s'
      | O =>
          if startswith s old
          then new +:+ replace_scan old new (String.length old - 1) s'
          else String c (replace_scan old new 0 s')
      end
  end.

(** With an empty [old], Python puts [new] before every character and at
    the end. *)
Fixpoint replace_empty (new s : string) : string :=
  match s with
  | EmptyString => new
  | String c s' => new +:+ String c (replace_empty new s')
  end.

Definition replace (old new s : string) : string :=
  match old with
  | EmptyString => replace_empty new s
  | String _ _ => replace_scan old new 0 s
  end.

End Str.

(** ** Markdown checkboxes *)

Definition unchecked_token : string := "[ ]".
Definition checked_token : string := "[x]".

(** ['<input type="checkbox" disabled>'] *)
Definition unchecked_box : string :=
  "<input type=" +:+ Str.dq +:+ "checkbox" +:+ Str.dq +:+ " disabled>".

(** ['<input type="checkbox" checked disabled>'] *)
Definition checked_box : string :=
  "<input type=" +:+ Str.dq +:+ "checkbox" +:+ Str.dq +:+ " checked disabled>".

(** Lines 119-120 of [md_to_html]: the two [html.replace] calls, in order. *)
Definition convert_checkboxes (html : string) : string :=
  let html := Str.replace unchecked_token unchecked_box html in
  let html := Str.replace checked_token checked_box html in
  html.

(** What the substitution is meant to do, read off the specification: going
    through the text, an unchecked token becomes the unchecked box, a checked
    token becomes the checked box, and any other character stays. *)
Inductive Substituted : string → string → Prop :=
  | Substituted_end :
      Substituted "" ""
  | Substituted_unchecked r r' :
      Substituted r r' →
      Substituted (unchecked_token +:+ r) (unchecked_box +:+ r')
  | Substituted_checked r r' :
      Substituted r r' →
      Substituted (checked_token +:+ r) (checked_box +:+ r')
  | Substituted_other c r r' :
      Str.startswith (String c r) unchecked_token = false →
      Str.startswith (String c r) checked_token = false →
      Substituted r r' →
      Substituted (String c r) (String c r').

(** A pattern that holds neither an opening bracket nor an opening angle
    cannot tell a text from the text with its unchecked tokens replaced. *)
Fixpoint plain (t : string) : bool :=
  match t with
  | EmptyString => true
  | String a t' => negb (Ascii.eqb a "[") && negb (Ascii.eqb a "<") && plain t'
  end.

(** ** Paths and the file system *)

(** A path is the list of its components, outermost first; [[]] is the
    root. *)
Abbreviation Path := (list string).

(** [pathlib] parses the right operand of [p / name] (POSIX flavour): the
    name is cut at every slash, empty components and components [.] are
    dropped, and [..] is kept as a component.  [pathlib] leaves [..] to the
    file system, and the disk below, a map keyed by paths, does not resolve
    it: what is proved of files by name is proved of names without it.
    [component] is what one piece of the name adds to the path. *)
Definition component (piece : string) : list string :=
  match piece with
  | "" | "." => []
  | _ => [piece]
  end.

(** The components of [name], [piece] being the characters read since the
    last slash. *)
Fixpoint components_from (piece name : string) : list string :=
  match name with
  | EmptyString => component piece
  | String c rest =>
      if Ascii.eqb c "/"
      then component piece ++ components_from "" rest
      else components_from (piece +:+ String c "") rest
  end.

Definition components (name : string) : list string :=
  components_from "" name.

(** A name that begins with a slash is absolute.  (POSIX sets a name with
    exactly two leading slashes apart; here it is read as any other
    absolute name.) *)
Definition is_absolute (name : string) : bool :=
  match name with
  | String c _ => Ascii.eqb c "/"
  | EmptyString => false
  end.

(** [p / name]: the components of [name] are appended to [p]; an absolute
    [name] starts again from the root.  So [dir / "a.md"] and
    [dir / "./a.md"] are one path and [dir / ""] is [dir]. *)
Definition joinpath (p : Path) (name : string) : Path :=
  if is_absolute name then components name else p ++ components name.
Infix "/:" := joinpath (at level 40, left associativity).

Fixpoint slash_free (name : string) : bool :=
  match name with
  | EmptyString => true
  | String c rest => negb (Ascii.eqb c "/") && slash_free rest
  end.

(** A file name in the narrow sense: one path component, that is, a name
    without a slash that is not empty, not [.] and not [..].  Only for such
    names is [p / name] the path [p] with the one component [name] added,
    and only then do two different names give two different paths. *)
Definition is_file_name (name : string) : bool :=
  match name with
  | "" | "." | ".." => false
  | _ => slash_free name
  end.

Definition parent (p : Path) : Path := removelast p.

(** What sits at a path.  A [TextFile] holds UTF-8 text; a [BinaryFile] holds
    bytes that do not decode as UTF-8 (the printed PDF is one). *)
Inductive node : Type :=
  | TextFile (text : string)
  | BinaryFile (data : string)
  | Directory.

(** The calls the script makes to Playwright. *)
Inductive browser_call : Type :=
  | SyncPlaywright      (* entering [with sync_playwright() as p] *)
  | Launch              (* [p.chromium.launch()] *)
  | NewPage             (* [browser.new_page()] *)
  | Goto                (* [page.goto(url)] *)
  | WaitForLoadState    (* [page.wait_for_load_state("networkidle")] *)
  | Pdf                 (* [page.pdf(...)] *)
  | BrowserClose        (* [browser.close()] *)
  | Stop.               (* leaving the [with] block: Playwright shuts down *)

(** The Python exceptions the script can meet. *)
Inductive exn : Type :=
  | FileNotFoundError (p : Path)
  | FileExistsError (p : Path)
  | IsADirectoryError (p : Path)
  | NotADirectoryError (p : Path)
  | UnicodeDecodeError (p : Path)
  | PlaywrightError (call : browser_call).

(** The lines the script prints. *)
Inductive printed : Type :=
  | PrintBuilding                      (* "Building AI Security Architecture Guide..." *)
  | PrintWarning (filename : string)   (* "  WARNING: {filename} not found, skipping." *)
  | PrintLoadedChapters (n : nat)      (* "  Loaded {n} chapters." *)
  | PrintLoadedExercises (n : nat)     (* "  Loaded {n} exercises." *)
  | PrintPdfSaved (pdf_path : Path) (size : nat)
                                       (* "  PDF saved: {pdf_path} ({size_mb:.1f} MB)",
                                          [size] being [st_size] in bytes *)
  | PrintDone.                         (* "\nDone." *)

(** Everything the script can observe or change. *)
Record World : Type := mkWorld {
  fs : gmap Path node;               (* the disk *)
  stdout : list printed;             (* what has been printed, oldest first *)
  chromium : list browser_call;      (* the browser calls that went through *)
  page : string                      (* the document loaded in the page *)
}.

Definition set_fs (f : gmap Path node → gmap Path node) (w : World) : World :=
  mkWorld (f (fs w)) (stdout w) (chromium w) (page w).
Definition put_line (l : printed) (w : World) : World :=
  mkWorld (fs w) (stdout w ++ [l]) (chromium w) (page w).
Definition log_call (c : browser_call) (w : World) : World :=
  mkWorld (fs w) (stdout w) (chromium w ++ [c]) (page w).
Definition set_page (html : string) (w : World) : World :=
  mkWorld (fs w) (stdout w) (chromium w) html.
Definition put_lines (ls : list printed) (w : World) : World :=
  mkWorld (fs w) (stdout w ++ ls) (chromium w) (page w).

(** ** Computations that may raise *)

Inductive outcome (A : Type) : Type :=
  | Ok (a : A)
  | Raise (e : exn).
Arguments Ok {A} a.
Arguments Raise {A} e.

Definition M (A : Type) : Type := World → outcome A * World.

Definition ret {A} (a : A) : M A := λ w, (Ok a, w).
Definition raise {A} (e : exn) : M A := λ w, (Raise e, w).
Definition bind {A B} (m : M A) (k : A → M B) : M B :=
  λ w, match m w with
       | (Ok a, w') => k a w'
       | (Raise e, w') => (Raise e, w')
       end.

Declare Scope build_scope.
Delimit Scope build_scope with build.
Notation "x <- m ;; k" := (bind m (λ x, k))
  (at level 100, m at next level, right associativity) : build_scope.
Notation "m ;; k" := (bind m (λ _, k))
  (at level 100, right associativity) : build_scope.
Open Scope build_scope.

(** [with enter as x: body]: [leave] runs whether [body] returns or raises;
    an exception of [body] goes on to the caller afterwards.  Nothing is
    left when [enter] itself raises. *)
Definition with_ {A B} (enter : M A) (leave : M unit) (body : A → M B) : M B :=
  λ w, match enter w with
       | (Raise e, w1) => (Raise e, w1)
       | (Ok x, w1) =>
           match body x w1 with
           | (Ok b, w2) =>
               match leave w2 with
               | (Ok _, w3) => (Ok b, w3)
               | (Raise e, w3) => (Raise e, w3)
               end
           | (Raise e, w2) =>
               match leave w2 with
               | (Ok _, w3) => (Raise e, w3)
               | (Raise e', w3) => (Raise e', w3)
               end
           end
       end.

Definition print (l : printed) : M unit := λ w, (Ok tt, put_line l w).

(** *** [pathlib] *)

Definition is_dir (m : gmap Path node) (p : Path) : bool :=
  match p with
  | [] => true
  | _ => match m !! p with Some Directory => true | _ => false end
  end.

(** Why a new entry cannot be made at [p], if it cannot: the parent is
    missing or is a file. *)
Definition no_room (m : gmap Path node) (p : Path) : option exn :=
  if is_dir m (parent p) then None
  else match m !! parent p with
       | None => Some (FileNotFoundError p)
       | Some _ => Some (NotADirectoryError p)
       end.

(** [p.exists()] *)
Definition path_exists (p : Path) : M bool :=
  λ w, (Ok (bool_decide (is_Some (fs w !! p))), w).

(** [p.read_text(encoding="utf-8")] *)
Definition read_text (p : Path) : M string :=
  λ w, match fs w !! p with
       | Some (TextFile text) => (Ok text, w)
       | Some (BinaryFile _) => (Raise (UnicodeDecodeError p), w)
       | Some Directory => (Raise (IsADirectoryError p), w)
       | None => (Raise (FileNotFoundError p), w)
       end.

(** Creating or overwriting the file at [p] with [n]. *)
Definition write_node (p : Path) (n : node) : M unit :=
  λ w, match fs w !! p with
       | Some Directory => (Raise (IsADirectoryError p), w)
       | Some _ => (Ok tt, set_fs (<[p := n]>) w)
       | None =>
           match no_room (fs w) p with
           | Some e => (Raise e, w)
           | None => (Ok tt, set_fs (<[p := n]>) w)
           end
       end.

(** [p.write_text(text, encoding="utf-8")] *)
Definition write_text (p : Path) (text : string) : M unit :=
  write_node p (TextFile text).

(** [p.mkdir(exist_ok=True)] *)
Definition mkdir_exist_ok (p : Path) : M unit :=
  λ w, match fs w !! p with
       | Some Directory => (Ok tt, w)
       | Some _ => (Raise (FileExistsError p), w)
       | None =>
           match no_room (fs w) p with
           | Some e => (Raise e, w)
           | None => (Ok tt, set_fs (<[p := Directory]>) w)
           end
       end.

(** [p.unlink(missing_ok=True)]: the [FileNotFoundError] of a missing file
    is swallowed. *)
Definition unlink_missing_ok (p : Path) : M unit :=
  λ w, match fs w !! p with
       | None => (Ok tt, w)
       | Some Directory => (Raise (IsADirectoryError p), w)
       | Some _ => (Ok tt, set_fs (delete p) w)
       end.

(** [p.stat().st_size].  The size of a directory depends on the platform;
    the script never asks for one, [page.pdf] having just written a file. *)
Definition stat_size (p : Path) : M nat :=
  λ w, match fs w !! p with
       | Some (TextFile text) => (Ok (String.length text), w)
       | Some (BinaryFile data) => (Ok (String.length data), w)
       | Some Directory => (Ok 0, w)
       | None => (Raise (FileNotFoundError p), w)
       end.

(** *** The browser *)

(** The arguments of [page.pdf]. *)
Record pdf_options : Type := mkPdfOptions {
  format : string;
  margin_top : string;
  margin_bottom : string;
  margin_left : string;
  margin_right : string;
  print_background : bool;
  display_header_footer : bool;
  header_template : string;
  footer_template : string
}.

(** Chromium as one run of the script drives it: any call may fail, for
    reasons of its own, and printing turns the loaded document into the
    bytes of a PDF.  An engine may stamp what it prints, so the bytes may
    differ from run to run: another run is another [Browser]. *)
Record Browser : Type := mkBrowser {
  call_fails : browser_call → World → bool;
  print_to_pdf : pdf_options → string → string
}.

(** Is a Playwright instance running after these calls? *)
Definition playwright_running (calls : list browser_call) : bool :=
  fold_left (λ running c,
    match c with
    | SyncPlaywright => true
    | Stop => false
    | _ => running
    end) calls false.

(** Is a browser process alive after these calls?  Stopping Playwright
    takes its browsers down with it. *)
Definition browser_alive (calls : list browser_call) : bool :=
  fold_left (λ alive c,
    match c with
    | Launch => true
    | BrowserClose | Stop => false
    | _ => alive
    end) calls false.

(** The six calls of the [with] block of [render_pdf]. *)
Definition block_calls : list browser_call :=
  [Launch; NewPage; Goto; WaitForLoadState; Pdf; BrowserClose].

(** ** Configuration *)

(** Content chapters (in order) *)
Definition CHAPTERS : list string := [
  "chapter-01-ai-landscape.md";
  "chapter-02-how-llms-work.md";
  "chapter-03-threat-modeling.md";
  "chapter-04-prompt-injection.md";
  "chapter-05-jailbreaks-guardrail-bypass.md";
  "chapter-06-data-leakage-privacy.md";
  "chapter-07-secure-ai-design.md";
  "chapter-08-supply-chain-security.md";
  "chapter-09-reference-architectures.md";
  "chapter-10-ai-security-program.md";
  "appendix-a-cheat-sheet.md";
  "appendix-b-tools-resources.md";
  "appendix-c-glossary.md"
].

(** Exercise files *)
Definition EXERCISES : list string := [
  "exercise-01-threat-model-chatbot.md";
  "exercise-02-prompt-injection-lab.md";
  "exercise-03-design-review.md";
  "exercise-04-supply-chain-audit.md";
  "exercise-05-architecture-challenge.md"
].

Definition COVER : string :=
  Str.nl +:+
  "<div class=" +:+ Str.dq +:+ "cover-page" +:+ Str.dq +:+ ">" +:+ Str.nl +:+
  "    <h1>AI Security Architecture</h1>" +:+ Str.nl +:+
  "    <div class=" +:+ Str.dq +:+ "subtitle" +:+ Str.dq +:+
    ">A Practical Guide to Securing LLM-Powered Systems</div>" +:+ Str.nl +:+
  "    <div class=" +:+ Str.dq +:+ "edition" +:+ Str.dq +:+
    ">Threat Modeling &bull; Secure Design &bull; Reference Architectures &bull; 2026 Edition</div>"
    +:+ Str.nl +:+
  "    <div class=" +:+ Str.dq +:+ "tagline" +:+ Str.dq +:+ ">" +:+ Str.nl +:+
  "        10 chapters &bull; 5 hands-on exercises &bull; No AI/ML experience required"
    +:+ Str.nl +:+
  "    </div>" +:+ Str.nl +:+
  "</div>" +:+ Str.nl.

Definition TOC_ENTRIES : list (string * bool) := [
  ("Chapter 1: The AI Security Landscape", true);
  ("Chapter 2: How LLMs Work (Just Enough to Secure Them)", true);
  ("Chapter 3: Threat Modeling AI Systems", true);
  ("Chapter 4: Prompt Injection", true);
  ("Chapter 5: Jailbreaks & Guardrail Bypass", true);
  ("Chapter 6: Data Leakage & Privacy", true);
  ("Chapter 7: Secure AI System Design", true);
  ("Chapter 8: AI Supply Chain Security", true);
  ("Chapter 9: Reference Architectures", true);
  ("Chapter 10: Building Your AI Security Program", true);
  ("Appendix A: AI Security Cheat Sheet", false);
  ("Appendix B: Tools & Resources", false);
  ("Appendix C: Glossary", false);
  ("Exercises", false)
].

(** The arguments [render_pdf] gives to [page.pdf]. *)
Definition PDF_OPTIONS : pdf_options := {|
  format := "Letter";
  margin_top := "0.85in";
  margin_bottom := "0.85in";
  margin_left := "0.85in";
  margin_right := "0.85in";
  print_background := true;
  display_header_footer := true;
  header_template := "<span></span>";
  footer_template :=
    Str.nl +:+
    "                <div style=" +:+ Str.dq +:+
      "font-size: 9px; color: #666; width: 100%; text-align: center;" +:+ Str.dq +:+ ">"
      +:+ Str.nl +:+
    "                    <span class=" +:+ Str.dq +:+ "pageNumber" +:+ Str.dq +:+ "></span>"
      +:+ Str.nl +:+
    "                </div>" +:+ Str.nl +:+
    "            "
|}.

(** ** The table of contents *)

(** [f'<li class="{css_class}">{title}</li>'] *)
Definition toc_item (entry : string * bool) : string :=
  let '(title, is_chapter) := entry in
  let css_class := if is_chapter then "chapter-entry" else "appendix-entry" in
  "<li class=" +:+ Str.dq +:+ css_class +:+ Str.dq +:+ ">" +:+ title +:+ "</li>".

(** The [for] loop of [build_toc], [items] being the list built so far. *)
Fixpoint build_toc_items (entries : list (string * bool)) (items : list string)
  : list string :=
  match entries with
  | [] => items
  | entry :: rest => build_toc_items rest (items ++ [toc_item entry])
  end.

Definition build_toc (entries : list (string * bool)) : string :=
  let items := build_toc_items entries [] in
  Str.nl +:+
  "<div class=" +:+ Str.dq +:+ "toc" +:+ Str.dq +:+ ">" +:+ Str.nl +:+
  "    <h1>Table of Contents</h1>" +:+ Str.nl +:+
  "    <ul>" +:+ Str.nl +:+
  "        " +:+ Str.join items +:+ Str.nl +:+
  "    </ul>" +:+ Str.nl +:+
  "</div>" +:+ Str.nl.

(** ** Sections and the document *)

(** [f'<div class="chapter">\n{html}\n</div>'] *)
Definition section_div (html : string) : string :=
  "<div class=" +:+ Str.dq +:+ "chapter" +:+ Str.dq +:+ ">" +:+ Str.nl +:+
  html +:+ Str.nl +:+ "</div>".

(** The f-string that [build_document] returns, its four holes filled with
    [css], [cover], [toc] and [body]. *)
Definition document (css cover toc body : string) : string :=
  "<!DOCTYPE html>" +:+ Str.nl +:+
  "<html lang=" +:+ Str.dq +:+ "en" +:+ Str.dq +:+ ">" +:+ Str.nl +:+
  "<head>" +:+ Str.nl +:+
  "    <meta charset=" +:+ Str.dq +:+ "UTF-8" +:+ Str.dq +:+ ">" +:+ Str.nl +:+
  "    <style>" +:+ Str.nl +:+
  css +:+ Str.nl +:+
  "    </style>" +:+ Str.nl +:+
  "</head>" +:+ Str.nl +:+
  "<body>" +:+ Str.nl +:+
  cover +:+ Str.nl +:+
  toc +:+ Str.nl +:+
  body +:+ Str.nl +:+
  "</body>" +:+ Str.nl +:+
  "</html>".

(** ** The script *)

Module Script.
Section Build.

(** [markdown.markdown(text, extensions=["tables", "fenced_code"])] *)
Variable markdown : string → string.

(** The Chromium that Playwright starts. *)
Variable browser : Browser.

(** [Path(__file__).parent], the directory of the script. *)
Variable BASE_DIR : Path.

Definition CONTENT_DIR : Path := BASE_DIR /: "content".
Definition EXERCISES_DIR : Path := BASE_DIR /: "exercises".
Definition STYLE_FILE : Path := BASE_DIR /: "style.css".
Definition OUTPUT_DIR : Path := BASE_DIR /: "export".

Definition PDF_FILE : Path := OUTPUT_DIR /: "AI-Security-Architecture-Guide.pdf".
Definition HTML_FILE : Path := OUTPUT_DIR /: "AI-Security-Architecture-Guide.html".

(** Lines 117-121: one Markdown text to one section. *)
Definition render_section (md_text : string) : string :=
  let html := markdown md_text in
  section_div (convert_checkboxes html).

(** The [for] loop of [md_to_html], [sections] being the list built so far. *)
Fixpoint md_to_html_loop (source_dir : Path) (filenames : list string)
    (sections : list string) : M (list string) :=
  match filenames with
  | [] => ret sections
  | filename :: rest =>
      let filepath := source_dir /: filename in
      found <- path_exists filepath ;;
      if negb found then
        print (PrintWarning filename) ;;
        md_to_html_loop source_dir rest sections
      else
        md_text <- read_text filepath ;;
        md_to_html_loop source_dir rest (sections ++ [render_section md_text])
  end.

(** Convert markdown files to HTML sections. *)
Definition md_to_html (source_dir : Path) (filenames : list string)
  : M (list string) :=
  md_to_html_loop source_dir filenames [].

(** [build_document], with the three lists it takes from the module given
    as arguments. *)
Definition build_document_with (chapters exercises : list string)
    (toc_entries : list (string * bool)) : M string :=
  css <- read_text STYLE_FILE ;;
  chapter_sections <- md_to_html CONTENT_DIR chapters ;;
  print (PrintLoadedChapters (length chapter_sections)) ;;
  exercise_sections <- md_to_html EXERCISES_DIR exercises ;;
  print (PrintLoadedExercises (length exercise_sections)) ;;
  let all_sections := chapter_sections ++ exercise_sections in
  ret (document css COVER (build_toc toc_entries) (Str.join all_sections)).

(** *** What [md_to_html] is expected to return

    The text of the file at [p], if a text file is there. *)
Definition text_at (m : gmap Path node) (p : Path) : option string :=
  match m !! p with
  | Some (TextFile text) => Some text
  | _ => None
  end.

Definition missing (m : gmap Path node) (source_dir : Path) (filename : string)
  : bool :=
  match m !! (source_dir /: filename) with
  | None => true
  | Some _ => false
  end.

(** The texts of the files of [filenames] that are in [source_dir], in the
    order of [filenames]. *)
Definition texts_of (m : gmap Path node) (source_dir : Path)
    (filenames : list string) : list string :=
  omap (λ filename, text_at m (source_dir /: filename)) filenames.

(** One section for each of these texts, in the same order. *)
Definition sections_of (m : gmap Path node) (source_dir : Path)
    (filenames : list string) : list string :=
  render_section <$> texts_of m source_dir filenames.

(** One warning for each file of [filenames] that is not in [source_dir]. *)
Definition warnings_of (m : gmap Path node) (source_dir : Path)
    (filenames : list string) : list printed :=
  PrintWarning <$> filter (λ filename, missing m source_dir filename) filenames.

(** Every file of [filenames] is missing from [source_dir] or is a text
    file there. *)
Definition readable (m : gmap Path node) (source_dir : Path)
    (filenames : list string) : Prop :=
  Forall (λ filename,
    m !! (source_dir /: filename) = None
    ∨ ∃ text, m !! (source_dir /: filename) = Some (TextFile text)) filenames.

(** What [build_document] prints while it loads the two lists. *)
Definition loading_lines (m : gmap Path node) (chapters exercises : list string)
  : list printed :=
  warnings_of m CONTENT_DIR chapters
  ++ [PrintLoadedChapters (length (sections_of m CONTENT_DIR chapters))]
  ++ warnings_of m EXERCISES_DIR exercises
  ++ [PrintLoadedExercises (length (sections_of m EXERCISES_DIR exercises))].

(** Build the complete HTML document. *)
Definition build_document : M string :=
  build_document_with CHAPTERS EXERCISES TOC_ENTRIES.

(** One call to the browser: it raises, or it goes through and is logged. *)
Definition call (c : browser_call) : M unit :=
  λ w, if call_fails browser c w
       then (Raise (PlaywrightError c), w)
       else (Ok tt, log_call c w).

(** [page.goto(f"file:///{html_path.resolve().as_posix()}")]: the page loads
    the file behind the URL. *)
Definition page_goto (html_path : Path) : M unit :=
  λ w, match fs w !! html_path with
       | Some (TextFile html) =>
           match call Goto w with
           | (Ok _, w') => (Ok tt, set_page html w')
           | (Raise e, w') => (Raise e, w')
           end
       | _ => (Raise (PlaywrightError Goto), w)
       end.

(** [page.pdf(path=str(pdf_path), ...)]: the page is printed and the bytes
    are stored at [pdf_path]. *)
Definition page_pdf (pdf_path : Path) (options : pdf_options) : M unit :=
  λ w, if call_fails browser Pdf w then (Raise (PlaywrightError Pdf), w)
       else
         let data := print_to_pdf browser options (page w) in
         match write_node pdf_path (BinaryFile data) w with
         | (Ok _, w') => (Ok tt, log_call Pdf w')
         | (Raise e, w') => (Raise e, w')
         end.

(** Leaving [with sync_playwright() as p]. *)
Definition playwright_stop : M unit := λ w, (Ok tt, log_call Stop w).

(** Render HTML to PDF using Playwright Chromium. *)
Definition render_pdf (html_content : string) (html_path pdf_path : Path) : M unit :=
  write_text html_path html_content ;;
  with_ (call SyncPlaywright) playwright_stop (λ _,
    call Launch ;;
    call NewPage ;;
    page_goto html_path ;;
    call WaitForLoadState ;;
    page_pdf pdf_path PDF_OPTIONS ;;
    call BrowserClose) ;;
  size <- stat_size pdf_path ;;
  print (PrintPdfSaved pdf_path size).

Definition main (argv : list string) : M unit :=
  let save_html := bool_decide ("--html" ∈ argv) in
  mkdir_exist_ok OUTPUT_DIR ;;
  print PrintBuilding ;;
  html <- build_document ;;
  render_pdf html HTML_FILE PDF_FILE ;;
  (if negb save_html then unlink_missing_ok HTML_FILE else ret tt) ;;
  print PrintDone.

End Build.
End Script.
Import Script.

(** ** A small guide to run the script on *)

Definition sample_markdown (md_text : string) : string :=
  "<p>" +:+ md_text +:+ "</p>".

Definition sample_base : Path := ["guide"].

(** A checkout with the style sheet, two chapters and one exercise; all
    other configured files are missing. *)
Definition sample_fs : gmap Path node :=
  list_to_map [
    (["guide"], Directory);
    (["guide"; "style.css"], TextFile "body { margin: 0 }");
    (["guide"; "content"], Directory);
    (["guide"; "content"; "chapter-01-ai-landscape.md"],
       TextFile "# Landscape [ ] read [x] skim");
    (["guide"; "content"; "chapter-03-threat-modeling.md"],
       TextFile "# Threats");
    (["guide"; "exercises"], Directory);
    (["guide"; "exercises"; "exercise-01-threat-model-chatbot.md"],
       TextFile "# Chatbot [X] [] [  ]")
  ].

Definition sample_world : World := mkWorld sample_fs [] [] "".

(** Two entries for a table of contents; no file goes with the second. *)
Definition sample_toc : list (string * bool) :=
  [("Chapter 1: Landscape", true); ("Glossary", false)].

(** The document of the small guide with these two entries, written out:
    the style sheet, the cover, the two entries, the two chapters that are
    there and the exercise. *)
Definition sample_document : string :=
  "<!DOCTYPE html>" +:+ Str.nl +:+
  "<html lang=" +:+ Str.dq +:+ "en" +:+ Str.dq +:+ ">" +:+ Str.nl +:+
  "<head>" +:+ Str.nl +:+
  "    <meta charset=" +:+ Str.dq +:+ "UTF-8" +:+ Str.dq +:+ ">" +:+ Str.nl +:+
  "    <style>" +:+ Str.nl +:+
  "body { margin: 0 }" +:+ Str.nl +:+
  "    </style>" +:+ Str.nl +:+
  "</head>" +:+ Str.nl +:+
  "<body>" +:+ Str.nl +:+
  COVER +:+ Str.nl +:+
  Str.nl +:+
  "<div class=" +:+ Str.dq +:+ "toc" +:+ Str.dq +:+ ">" +:+ Str.nl +:+
  "    <h1>Table of Contents</h1>" +:+ Str.nl +:+
  "    <ul>" +:+ Str.nl +:+
  "        <li class=" +:+ Str.dq +:+ "chapter-entry" +:+ Str.dq
    +:+ ">Chapter 1: Landscape</li><li class=" +:+ Str.dq +:+ "appendix-entry"
    +:+ Str.dq +:+ ">Glossary</li>" +:+ Str.nl +:+
  "    </ul>" +:+ Str.nl +:+
  "</div>" +:+ Str.nl +:+
  Str.nl +:+
  "<div class=" +:+ Str.dq +:+ "chapter" +:+ Str.dq +:+ ">" +:+ Str.nl +:+
  "<p># Landscape <input type=" +:+ Str.dq +:+ "checkbox" +:+ Str.dq
    +:+ " disabled> read <input type=" +:+ Str.dq +:+ "checkbox" +:+ Str.dq
    +:+ " checked disabled> skim</p>" +:+ Str.nl +:+
  "</div>" +:+
  "<div class=" +:+ Str.dq +:+ "chapter" +:+ Str.dq +:+ ">" +:+ Str.nl +:+
  "<p># Threats</p>" +:+ Str.nl +:+
  "</div>" +:+
  "<div class=" +:+ Str.dq +:+ "chapter" +:+ Str.dq +:+ ">" +:+ Str.nl +:+
  "<p># Chatbot [X] [] [  ]</p>" +:+ Str.nl +:+
  "</div>" +:+ Str.nl +:+
  "</body>" +:+ Str.nl +:+
  "</html>".

(** A browser that never fails. *)
Definition sample_browser : Browser :=
  mkBrowser (λ _ _, false) (λ _ html, "%PDF-1.4 " +:+ html).

#[global] Instance browser_call_eq_dec : EqDecision browser_call.
Proof. solve_decision. Defined.

(** A browser that never fails and stamps what it prints, as an engine
    that writes the time of printing into the PDF does. *)
Definition stamping_browser (stamp : string) : Browser :=
  mkBrowser (λ _ _, false) (λ _ html, "%PDF-1.4 " +:+ stamp +:+ " " +:+ html).

(** A browser in which the call [c] fails, and no other. *)
Definition failing_browser (c : browser_call) : Browser :=
  mkBrowser (λ c' _, bool_decide (c' = c)) (λ _ html, "%PDF-1.4 " +:+ html).

(** The checkout without its style sheet. *)
Definition unstyled_world : World :=
  set_fs (delete (sample_base /: "style.css")) sample_world.

(** The checkout with a directory where the second chapter should be. *)
Definition cluttered_world : World :=
  set_fs (<[sample_base /: "content" /: "chapter-02-how-llms-work.md" := Directory]>)
    sample_world.

(** The checkout with a file named [export]. *)
Definition blocked_world : World :=
  set_fs (<[sample_base /: "export" := TextFile "notes"]>) sample_world.

(** The checkout with its output directory. *)
Definition exported_world : World :=
  set_fs (<[sample_base /: "export" := Directory]>) sample_world.

(** ** What a computation may do to the world *)

(** Every run of [m], whether it returns or raises, takes a world to one
    that [R] relates to it. *)
Definition steps {A} (R : relation World) (m : M A) : Prop :=
  ∀ w r w', m w = (r, w') → R w w'.

(** The disk, the browser log and the page are as they were. *)
Definition same_disk : relation World :=
  λ w w', fs w' = fs w ∧ chromium w' = chromium w ∧ page w' = page w.

(** The output has grown, by lines of [P] only. *)
Definition printed_more (P : printed → Prop) : relation World :=
  λ w w', ∃ ls, stdout w' = stdout w ++ ls ∧ Forall P ls.

(** The lines of [build_document]. *)
Definition is_loading_line (l : printed) : Prop :=
  match l with
  | PrintWarning _ | PrintLoadedChapters _ | PrintLoadedExercises _ => True
  | _ => False
  end.

(** [m] prints [PrintDone] once, as its last line, when it returns, and
    does not print it when it raises. *)
Definition reports_done (m : M unit) : Prop :=
  ∀ w r w', m w = (r, w') →
    ∃ ls,
      Forall (λ l, l ≠ PrintDone) ls
      ∧ stdout w' = stdout w ++ ls
                    ++ match r with Ok _ => [PrintDone] | Raise _ => [] end.

(** The disk that a build leaves behind: the output directory, the two
    artifacts, and the intermediate one taken away again unless it is to be
    kept. *)
Definition built_disk (BASE_DIR : Path) (m : gmap Path node) (doc pdf : string)
    (save_html : bool) : gmap Path node :=
  let m' := <[PDF_FILE BASE_DIR := BinaryFile pdf]>
              (<[HTML_FILE BASE_DIR := TextFile doc]>
                 (<[OUTPUT_DIR BASE_DIR := Directory]> m)) in
  if save_html then m' else delete (HTML_FILE BASE_DIR) m'.

(** No bracket opens in [s]. *)
Fixpoint bracket_free (s : string) : bool :=
  match s with
  | EmptyString => true
  | String c s' => negb (Ascii.eqb c "[") && bracket_free s'
  end.

(** * Properties *)

(** ** Strings *)

Module StrFacts.
Import Str.

Lemma app_cons c s t : String c s +:+ t = String c (s +:+ t).
Proof. reflexivity. Qed.

Lemma app_nil_r s : s +:+ "" = s.
Proof. induction s as [|c s IH]; [reflexivity|]. by rewrite app_cons, IH. Qed.

Lemma app_assoc s t u : (s +:+ t) +:+ u = s +:+ (t +:+ u).
Proof. induction s as [|c s IH]; [reflexivity|]. by rewrite !app_cons, IH. Qed.

Lemma length_app s t : String.length (s +:+ t) = String.length s + String.length t.
Proof. induction s as [|c s IH]; [reflexivity|]. rewrite app_cons. simpl. by rewrite IH. Qed.

Lemma startswith_app old r : startswith (old +:+ r) old = true.
Proof.
  induction old as [|a old IH]; [reflexivity|].
  rewrite app_cons. simpl. by rewrite Ascii.eqb_refl.
Qed.

Lemma startswith_split s old :
  startswith s old = true → s = old +:+ drop (String.length old) s.
Proof.
  revert s. induction old as [|a old IH]; intros s H; [reflexivity|].
  destruct s as [|b s]; [discriminate|]. simpl in H.
  destruct (Ascii.eqb a b) eqn:E; [|discriminate].
  apply Ascii.eqb_eq in E as ->. rewrite app_cons. simpl. f_equal. by apply IH.
Qed.

Lemma startswith_cons c r a t :
  startswith (String c r) (String a t)
  = if Ascii.eqb a c then startswith r t else false.
Proof. reflexivity. Qed.

Lemma startswith_inv s old : startswith s old = true → ∃ r, s = old +:+ r.
Proof. intros H. eexists. by apply startswith_split. Qed.

Lemma occurs_cons old c s : occurs old s → occurs old (String c s).
Proof. intros (a & b & ->). by exists (String c a), b. Qed.

Lemma startswith_occurs s old : startswith s old = true → occurs old s.
Proof. intros H. exists "", (drop (String.length old) s). by apply startswith_split. Qed.

Lemma join_app l1 l2 : join (l1 ++ l2) = join l1 +:+ join l2.
Proof.
  induction l1 as [|x l1 IH]; [reflexivity|].
  simpl. by rewrite IH, app_assoc.
Qed.

(** [join] puts the items one after the other, and nothing else. *)
Lemma join_foldr items : join items = foldr String.append "" items.
Proof. induction items as [|x rest IH]; [reflexivity|]. simpl. by rewrite IH. Qed.

Lemma replace_scan_drop old new k s :
  replace_scan old new k s = replace_scan old new 0 (drop k s).
Proof.
  revert k. induction s as [|c s IH]; intros [|k]; try reflexivity.
  simpl. apply IH.
Qed.

Lemma replace_miss old new c r :
  startswith (String c r) old = false →
  replace old new (String c r) = String c (replace old new r).
Proof.
  intros H. destruct old as [|a old]; [discriminate|].
  unfold replace. simpl replace_scan. simpl in H. by rewrite H.
Qed.

Lemma replace_hit old new r :
  old ≠ "" → replace old new (old +:+ r) = new +:+ replace old new r.
Proof.
  intros Hne. destruct old as [|a old]; [done|].
  unfold replace. rewrite app_cons.
  change (replace_scan (String a old) new 0 (String a (old +:+ r)))
    with (if startswith (String a (old +:+ r)) (String a old)
          then new +:+ replace_scan (String a old) new
                         (String.length (String a old) - 1) (old +:+ r)
          else String a (replace_scan (String a old) new 0 (old +:+ r))).
  rewrite <- app_cons, startswith_app, replace_scan_drop. do 2 f_equal.
  simpl. rewrite Nat.sub_0_r. clear. induction old as [|b old IH]; [reflexivity|].
  rewrite app_cons. simpl. apply IH.
Qed.

End StrFacts.

(** ** Checkboxes *)

Section Checkboxes.
Import Str StrFacts.

Lemma convert_checkboxes_unchecked r :
  convert_checkboxes (unchecked_token +:+ r)
  = unchecked_box +:+ convert_checkboxes r.
Proof. reflexivity. Qed.

Lemma convert_checkboxes_checked r :
  convert_checkboxes (checked_token +:+ r)
  = checked_box +:+ convert_checkboxes r.
Proof. reflexivity. Qed.

Lemma startswith_replace_unchecked t s :
  plain t = true →
  startswith (replace unchecked_token unchecked_box s) t = startswith s t.
Proof.
  revert s. induction t as [|a t IH]; intros s Ht; [reflexivity|].
  simpl in Ht. apply andb_prop in Ht as [Ha Ht]. apply andb_prop in Ha as [Ha1 Ha2].
  apply negb_true_iff in Ha1, Ha2.
  destruct (startswith s unchecked_token) eqn:Hs.
  - apply startswith_inv in Hs as [r ->].
    rewrite replace_hit by done.
    change (unchecked_box +:+ ?x) with (String "<" (drop 1 unchecked_box +:+ x)).
    change (unchecked_token +:+ r) with (String "[" (" ]" +:+ r)).
    simpl. by rewrite Ha1, Ha2.
  - destruct s as [|c s]; [reflexivity|].
    rewrite replace_miss by done. rewrite !startswith_cons. by rewrite IH.
Qed.

Lemma startswith_checked_replace s :
  startswith (replace unchecked_token unchecked_box s) checked_token
  = startswith s checked_token.
Proof.
  destruct (startswith s unchecked_token) eqn:Hs.
  - apply startswith_inv in Hs as [r ->]. by rewrite replace_hit.
  - destruct s as [|c s]; [reflexivity|].
    rewrite replace_miss by done.
    change checked_token with (String "[" "x]"). rewrite !startswith_cons.
    destruct (Ascii.eqb "[" c); [|done].
    by apply (startswith_replace_unchecked "x]").
Qed.

Lemma convert_checkboxes_other c r :
  startswith (String c r) unchecked_token = false →
  startswith (String c r) checked_token = false →
  convert_checkboxes (String c r) = String c (convert_checkboxes r).
Proof.
  intros H1 H2. unfold convert_checkboxes.
  rewrite (replace_miss unchecked_token) by done.
  rewrite (replace_miss checked_token); [done|].
  rewrite <- (replace_miss unchecked_token) by done.
  by rewrite startswith_checked_replace.
Qed.

Lemma convert_checkboxes_nil : convert_checkboxes "" = "".
Proof. reflexivity. Qed.

(** No token reaches across a point where an opening bracket follows: both
    tokens have their only bracket in front. *)
Lemma startswith_token_before_bracket tok a r :
  tok = unchecked_token ∨ tok = checked_token →
  a ≠ "" →
  startswith (a +:+ String "[" r) tok = startswith a tok.
Proof.
  intros Htok Ha.
  destruct a as [|c1 [|c2 [|c3 a]]]; [done|..];
    destruct Htok as [-> | ->]; cbv [unchecked_token checked_token];
    rewrite ?app_cons; change ("" +:+ String "[" r) with (String "[" r);
    rewrite ?startswith_cons;
    repeat (match goal with |- context [Ascii.eqb ?x ?y] =>
              destruct (Ascii.eqb x y) eqn:? end);
    try reflexivity; try discriminate.
Qed.

(** The text can be cut in front of any opening bracket and the two parts
    converted one by one. *)
Lemma convert_checkboxes_cut a r :
  convert_checkboxes (a +:+ String "[" r)
  = convert_checkboxes a +:+ convert_checkboxes (String "[" r).
Proof.
  remember (String.length a) as n eqn:Hn. revert a Hn.
  induction n as [n IH] using lt_wf_ind. intros a ->.
  destruct (startswith a unchecked_token) eqn:H1.
  { apply startswith_inv in H1 as [a' ->].
    rewrite app_assoc, !convert_checkboxes_unchecked, app_assoc.
    f_equal. eapply IH; [|reflexivity]. rewrite length_app. simpl. lia. }
  destruct (startswith a checked_token) eqn:H2.
  { apply startswith_inv in H2 as [a' ->].
    rewrite app_assoc, !convert_checkboxes_checked, app_assoc.
    f_equal. eapply IH; [|reflexivity]. rewrite length_app. simpl. lia. }
  destruct a as [|c a]; [reflexivity|].
  rewrite (convert_checkboxes_other c a) by done.
  rewrite !app_cons.
  rewrite (convert_checkboxes_other c (a +:+ String "[" r)).
  - f_equal. eapply IH; [|reflexivity]. simpl. lia.
  - rewrite <- app_cons, startswith_token_before_bracket; auto.
  - rewrite <- app_cons, startswith_token_before_bracket; auto.
Qed.

Lemma convert_checkboxes_Substituted html :
  Substituted html (convert_checkboxes html).
Proof.
  remember (String.length html) as n eqn:Hn. revert html Hn.
  induction n as [n IH] using lt_wf_ind. intros s ->.
  destruct (startswith s unchecked_token) eqn:H1.
  { apply startswith_inv in H1 as [r ->]. rewrite convert_checkboxes_unchecked.
    constructor. eapply IH; [|reflexivity]. rewrite length_app. simpl. lia. }
  destruct (startswith s checked_token) eqn:H2.
  { apply startswith_inv in H2 as [r ->]. rewrite convert_checkboxes_checked.
    constructor. eapply IH; [|reflexivity]. rewrite length_app. simpl. lia. }
  destruct s as [|c r]; [constructor|].
  rewrite convert_checkboxes_other by done.
  constructor; [done..|]. eapply IH; [|reflexivity]. simpl. lia.
Qed.

Lemma Substituted_convert_checkboxes html out :
  Substituted html out → out = convert_checkboxes html.
Proof.
  induction 1 as [|r r' _ ->|r r' _ ->|c r r' H1 H2 _ ->].
  - reflexivity.
  - by rewrite convert_checkboxes_unchecked.
  - by rewrite convert_checkboxes_checked.
  - by rewrite convert_checkboxes_other.
Qed.

Lemma convert_checkboxes_id html :
  ¬ occurs unchecked_token html → ¬ occurs checked_token html →
  convert_checkboxes html = html.
Proof.
  induction html as [|c r IH]; intros H1 H2; [reflexivity|].
  rewrite convert_checkboxes_other.
  - f_equal. apply IH; intros Ho; [apply H1|apply H2]; by apply occurs_cons.
  - destruct (startswith (String c r) unchecked_token) eqn:E; [|done].
    destruct H1. by apply startswith_occurs.
  - destruct (startswith (String c r) checked_token) eqn:E; [|done].
    destruct H2. by apply startswith_occurs.
Qed.

(** ** C2 *)

(** C2.  For every converted text [html], [convert_checkboxes] replaces the
    unchecked token by the disabled unchecked box and the checked token by
    the disabled checked box, and changes nothing else:
    - wherever an unchecked token stands in [html], the output is the
      converted text before it, the unchecked box, and the converted text
      after it; likewise for a checked token and the checked box;
    - a text that holds neither token comes out as it went in;
    - the output is the one text that [Substituted], the substitution as the
      specification words it, relates to [html]. *)
Theorem checkbox_substitution (html : string) :
  (∀ a b, html = a +:+ unchecked_token +:+ b →
     convert_checkboxes html
     = convert_checkboxes a +:+ unchecked_box +:+ convert_checkboxes b)
  ∧ (∀ a b, html = a +:+ checked_token +:+ b →
     convert_checkboxes html
     = convert_checkboxes a +:+ checked_box +:+ convert_checkboxes b)
  ∧ (¬ occurs unchecked_token html → ¬ occurs checked_token html →
     convert_checkboxes html = html)
  ∧ Substituted html (convert_checkboxes html)
  ∧ (∀ out, Substituted html out → out = convert_checkboxes html).
Proof.
  split_and!.
  - intros a b ->. change (unchecked_token +:+ b) with (String "[" (" ]" +:+ b)).
    by rewrite convert_checkboxes_cut.
  - intros a b ->. change (checked_token +:+ b) with (String "[" ("x]" +:+ b)).
    by rewrite convert_checkboxes_cut.
  - apply convert_checkboxes_id.
  - apply convert_checkboxes_Substituted.
  - apply Substituted_convert_checkboxes.
Qed.

(** ** C9 *)

(** C9.  The substitution is a literal one, sensitive to case and to white
    space: wherever one of the look-alikes [[X]], [[]] and [[  ]] (two
    spaces) stands in the converted text, it is still there, as it was, in
    the output, between the converted texts before and after it. *)
Theorem checkbox_lookalikes_untouched (a b : string) :
  convert_checkboxes (a +:+ "[X]" +:+ b)
    = convert_checkboxes a +:+ "[X]" +:+ convert_checkboxes b
  ∧ convert_checkboxes (a +:+ "[]" +:+ b)
    = convert_checkboxes a +:+ "[]" +:+ convert_checkboxes b
  ∧ convert_checkboxes (a +:+ "[  ]" +:+ b)
    = convert_checkboxes a +:+ "[  ]" +:+ convert_checkboxes b.
Proof.
  split_and!.
  - change ("[X]" +:+ b) with (String "[" ("X]" +:+ b)).
    by rewrite convert_checkboxes_cut.
  - change ("[]" +:+ b) with (String "[" ("]" +:+ b)).
    by rewrite convert_checkboxes_cut.
  - change ("[  ]" +:+ b) with (String "[" ("  ]" +:+ b)).
    by rewrite convert_checkboxes_cut.
Qed.

End Checkboxes.

(** ** The world *)

Section WorldFacts.

Lemma run_pair {A} (m : M A) w r : fst (m w) = r → m w = (r, snd (m w)).
Proof. intros <-. by destruct (m w). Qed.

Lemma put_lines_nil w : put_lines [] w = w.
Proof. destruct w. unfold put_lines. simpl. by rewrite app_nil_r. Qed.

Lemma put_lines_put_line l ls w :
  put_lines ls (put_line l w) = put_lines (l :: ls) w.
Proof. unfold put_lines, put_line. simpl. by rewrite <- app_assoc. Qed.

Lemma put_lines_app ls1 ls2 w :
  put_lines ls2 (put_lines ls1 w) = put_lines (ls1 ++ ls2) w.
Proof. unfold put_lines. simpl. by rewrite <- app_assoc. Qed.

Lemma put_line_put_lines l w : put_line l w = put_lines [l] w.
Proof. reflexivity. Qed.

Lemma components_from_slash_free piece name :
  slash_free name = true →
  components_from piece name = component (piece +:+ name).
Proof.
  revert piece. induction name as [|c rest IH]; intros piece H.
  - by rewrite StrFacts.app_nil_r.
  - simpl in H. apply andb_prop in H as [Hc Hrest].
    apply negb_true_iff in Hc. simpl. rewrite Hc, IH by done.
    by rewrite StrFacts.app_assoc.
Qed.

Lemma is_file_name_slash_free a : is_file_name a = true → slash_free a = true.
Proof.
  unfold is_file_name. intros H.
  repeat (match type of H with
          | context [match ?x with _ => _ end] => destruct x; try discriminate
          end); exact H.
Qed.

(** With a file name, [/] adds the one component. *)
Lemma joinpath_file_name p a : is_file_name a = true → p /: a = p ++ [a].
Proof.
  intros H. pose proof (is_file_name_slash_free a H) as Hs.
  unfold joinpath, components. rewrite components_from_slash_free by done.
  change ("" +:+ a) with a.
  destruct a as [|c a]; [discriminate|].
  simpl in Hs. apply andb_prop in Hs as [Hc _]. apply negb_true_iff in Hc.
  unfold is_absolute. rewrite Hc. f_equal.
  unfold is_file_name in H. unfold component.
  repeat (match type of H with
          | context [match ?x with _ => _ end] => destruct x; try discriminate
          end); reflexivity.
Qed.

Lemma joinpath_inj p q a b :
  is_file_name a = true → is_file_name b = true →
  p /: a = q /: b → p = q ∧ a = b.
Proof.
  intros Ha Hb. rewrite !joinpath_file_name by done.
  intros H. by apply app_inj_tail in H.
Qed.

Lemma chapters_are_file_names : Forall (λ f, is_file_name f = true) CHAPTERS.
Proof. repeat constructor. Qed.

Lemma exercises_are_file_names : Forall (λ f, is_file_name f = true) EXERCISES.
Proof. repeat constructor. Qed.

Lemma chapter_is_file_name f : f ∈ CHAPTERS → is_file_name f = true.
Proof.
  pose proof chapters_are_file_names as H. rewrite Forall_forall in H. apply H.
Qed.

Lemma exercise_is_file_name f : f ∈ EXERCISES → is_file_name f = true.
Proof.
  pose proof exercises_are_file_names as H. rewrite Forall_forall in H. apply H.
Qed.

Lemma parent_joinpath p a : is_file_name a = true → parent (p /: a) = p.
Proof.
  intros Ha. rewrite joinpath_file_name by done.
  unfold parent. apply removelast_last.
Qed.

Lemma joinpath_length p a :
  is_file_name a = true → length (p /: a) = S (length p).
Proof.
  intros Ha. rewrite joinpath_file_name by done.
  rewrite length_app. simpl. lia.
Qed.

End WorldFacts.

(** ** [md_to_html] *)

Section MdToHtml.
Variable markdown : string → string.

Local Abbreviation md_to_html_loop := (md_to_html_loop markdown).
Local Abbreviation md_to_html := (md_to_html markdown).
Local Abbreviation sections_of := (sections_of markdown).
Local Abbreviation render_section := (render_section markdown).

Lemma sections_of_cons_text m dir f rest text :
  m !! (dir /: f) = Some (TextFile text) →
  sections_of m dir (f :: rest) = render_section text :: sections_of m dir rest.
Proof. intros H. unfold sections_of, texts_of, text_at. simpl. by rewrite H. Qed.

Lemma sections_of_cons_missing m dir f rest :
  m !! (dir /: f) = None →
  sections_of m dir (f :: rest) = sections_of m dir rest.
Proof. intros H. unfold sections_of, texts_of, text_at. simpl. by rewrite H. Qed.

Lemma sections_of_app m dir l1 l2 :
  sections_of m dir (l1 ++ l2) = sections_of m dir l1 ++ sections_of m dir l2.
Proof. unfold sections_of, texts_of. by rewrite omap_app, fmap_app. Qed.

Lemma warnings_of_app m dir l1 l2 :
  warnings_of m dir (l1 ++ l2) = warnings_of m dir l1 ++ warnings_of m dir l2.
Proof. unfold warnings_of. by rewrite filter_app, fmap_app. Qed.

Lemma warnings_of_cons_missing m dir f rest :
  m !! (dir /: f) = None →
  warnings_of m dir (f :: rest) = PrintWarning f :: warnings_of m dir rest.
Proof.
  intros H. unfold warnings_of.
  rewrite filter_cons_True by (unfold missing; by rewrite H). done.
Qed.

Lemma warnings_of_cons_present m dir f rest n :
  m !! (dir /: f) = Some n →
  warnings_of m dir (f :: rest) = warnings_of m dir rest.
Proof.
  intros H. unfold warnings_of.
  rewrite filter_cons_False by (unfold missing; rewrite H; intros []). done.
Qed.

(** One turn of the loop, by what is at the path. *)
Lemma md_to_html_loop_missing dir f rest acc w :
  fs w !! (dir /: f) = None →
  md_to_html_loop dir (f :: rest) acc w
  = md_to_html_loop dir rest acc (put_line (PrintWarning f) w).
Proof.
  intros H. simpl. unfold bind, path_exists. rewrite H.
  rewrite bool_decide_eq_false_2; [done|]. by intros [? ?].
Qed.

Lemma md_to_html_loop_text dir f rest acc w text :
  fs w !! (dir /: f) = Some (TextFile text) →
  md_to_html_loop dir (f :: rest) acc w
  = md_to_html_loop dir rest (acc ++ [render_section text]) w.
Proof.
  intros H. simpl. unfold bind, path_exists, read_text. rewrite H.
  rewrite bool_decide_eq_true_2 by eauto. simpl. by rewrite H.
Qed.

Lemma md_to_html_loop_binary dir f rest acc w data :
  fs w !! (dir /: f) = Some (BinaryFile data) →
  md_to_html_loop dir (f :: rest) acc w = (Raise (UnicodeDecodeError (dir /: f)), w).
Proof.
  intros H. simpl. unfold bind, path_exists, read_text. rewrite H.
  rewrite bool_decide_eq_true_2 by eauto. simpl. by rewrite H.
Qed.

Lemma md_to_html_loop_directory dir f rest acc w :
  fs w !! (dir /: f) = Some Directory →
  md_to_html_loop dir (f :: rest) acc w = (Raise (IsADirectoryError (dir /: f)), w).
Proof.
  intros H. simpl. unfold bind, path_exists, read_text. rewrite H.
  rewrite bool_decide_eq_true_2 by eauto. simpl. by rewrite H.
Qed.

(** When every file is missing or a text file, the loop returns the
    sections of the files that are there and has printed the warnings for
    the others. *)
Lemma md_to_html_loop_readable dir filenames acc w :
  readable (fs w) dir filenames →
  md_to_html_loop dir filenames acc w
  = (Ok (acc ++ sections_of (fs w) dir filenames),
     put_lines (warnings_of (fs w) dir filenames) w).
Proof.
  revert acc w. induction filenames as [|f rest IH]; intros acc w Hr.
  - simpl. unfold ret. by rewrite app_nil_r, put_lines_nil.
  - apply Forall_cons in Hr as [[Hf | [text Hf]] Hr].
    + rewrite md_to_html_loop_missing by done.
      rewrite IH by done. simpl fs.
      rewrite sections_of_cons_missing, warnings_of_cons_missing by done.
      by rewrite put_lines_put_line.
    + rewrite (md_to_html_loop_text _ _ _ _ _ text) by done.
      rewrite IH by done.
      rewrite (sections_of_cons_text _ _ _ _ text) by done.
      rewrite (warnings_of_cons_present _ _ _ _ (TextFile text)) by done.
      by rewrite <- app_assoc.
Qed.

(** The loop raises only on something that is there and is no text. *)
Lemma md_to_html_loop_raise dir filenames acc w e w' :
  md_to_html_loop dir filenames acc w = (Raise e, w') →
  ∃ f, f ∈ filenames
    ∧ ((∃ data, fs w !! (dir /: f) = Some (BinaryFile data))
         ∧ e = UnicodeDecodeError (dir /: f)
       ∨ fs w !! (dir /: f) = Some Directory ∧ e = IsADirectoryError (dir /: f)).
Proof.
  revert acc w. induction filenames as [|f rest IH]; intros acc w H.
  - discriminate.
  - destruct (fs w !! (dir /: f)) as [[text|data|]|] eqn:Hf.
    + rewrite (md_to_html_loop_text _ _ _ _ _ text) in H by done.
      apply IH in H as (g & Hg & H). exists g. split; [by right|done].
    + rewrite (md_to_html_loop_binary _ _ _ _ _ data) in H by done.
      injection H as <- <-. exists f. split; [by left|]. left. eauto.
    + rewrite md_to_html_loop_directory in H by done.
      injection H as <- <-. exists f. split; [by left|]. by right.
    + rewrite md_to_html_loop_missing in H by done.
      apply IH in H as (g & Hg & H). exists g. split; [by right|done].
Qed.

Lemma md_to_html_loop_ok dir filenames acc w secs w' :
  md_to_html_loop dir filenames acc w = (Ok secs, w') →
  readable (fs w) dir filenames.
Proof.
  revert acc w. induction filenames as [|f rest IH]; intros acc w H.
  - constructor.
  - destruct (fs w !! (dir /: f)) as [[text|data|]|] eqn:Hf.
    + rewrite (md_to_html_loop_text _ _ _ _ _ text) in H by done.
      constructor; [right; eauto|]. by eapply IH.
    + by rewrite (md_to_html_loop_binary _ _ _ _ _ data) in H.
    + by rewrite md_to_html_loop_directory in H.
    + rewrite md_to_html_loop_missing in H by done.
      constructor; [by left|]. by apply IH in H.
Qed.

(** The loop over a list in two parts is the loop over the first part, then
    the loop over the second. *)
Lemma md_to_html_loop_app dir l1 l2 acc w :
  md_to_html_loop dir (l1 ++ l2) acc w
  = (acc' <- md_to_html_loop dir l1 acc ;; md_to_html_loop dir l2 acc') w.
Proof.
  revert acc w. induction l1 as [|f l1 IH]; intros acc w; [reflexivity|].
  rewrite <- app_comm_cons. unfold bind in *.
  destruct (fs w !! (dir /: f)) as [[text|data|]|] eqn:Hf.
  - rewrite !(md_to_html_loop_text _ _ _ _ _ text) by done. apply IH.
  - by rewrite !(md_to_html_loop_binary _ _ _ _ _ data).
  - by rewrite !md_to_html_loop_directory.
  - rewrite !md_to_html_loop_missing by done. apply IH.
Qed.

(** The sections built so far are only carried along. *)
Lemma md_to_html_loop_acc dir filenames acc w :
  md_to_html_loop dir filenames acc w
  = (secs <- md_to_html dir filenames ;; ret (acc ++ secs)) w.
Proof.
  unfold Script.md_to_html.
  revert acc w. induction filenames as [|f rest IH]; intros acc w.
  - unfold bind, ret. simpl. by rewrite app_nil_r.
  - unfold bind in *.
    destruct (fs w !! (dir /: f)) as [[text|data|]|] eqn:Hf.
    + rewrite !(md_to_html_loop_text _ _ _ _ _ text) by done.
      rewrite (IH (acc ++ _)), (IH ([] ++ _)).
      destruct (md_to_html_loop dir rest [] w) as [[secs|e] w']; [|done].
      unfold ret. by rewrite <- app_assoc.
    + by rewrite !(md_to_html_loop_binary _ _ _ _ _ data).
    + by rewrite !md_to_html_loop_directory.
    + rewrite !md_to_html_loop_missing by done. apply IH.
Qed.

(** The loop touches nothing but the output. *)
Lemma md_to_html_loop_world dir filenames acc w r w' :
  md_to_html_loop dir filenames acc w = (r, w') →
  fs w' = fs w ∧ chromium w' = chromium w ∧ page w' = page w.
Proof.
  revert acc w. induction filenames as [|f rest IH]; intros acc w H.
  - by injection H as _ <-.
  - destruct (fs w !! (dir /: f)) as [[text|data|]|] eqn:Hf.
    + rewrite (md_to_html_loop_text _ _ _ _ _ text) in H by done. by eapply IH.
    + rewrite (md_to_html_loop_binary _ _ _ _ _ data) in H by done.
      by injection H as _ <-.
    + rewrite md_to_html_loop_directory in H by done. by injection H as _ <-.
    + rewrite md_to_html_loop_missing in H by done. by apply IH in H.
Qed.

Lemma md_to_html_readable dir filenames w :
  readable (fs w) dir filenames →
  md_to_html dir filenames w
  = (Ok (sections_of (fs w) dir filenames),
     put_lines (warnings_of (fs w) dir filenames) w).
Proof. intros H. unfold Script.md_to_html. by rewrite md_to_html_loop_readable. Qed.

End MdToHtml.

(** ** Assembling the document *)

Section Assembly.
Variable markdown : string → string.
Variable BASE_DIR : Path.

Local Abbreviation md_to_html := (md_to_html markdown).
Local Abbreviation sections_of := (sections_of markdown).
Local Abbreviation render_section := (render_section markdown).
Local Abbreviation build_document_with := (build_document_with markdown BASE_DIR).
Local Abbreviation CONTENT_DIR := (CONTENT_DIR BASE_DIR).
Local Abbreviation EXERCISES_DIR := (EXERCISES_DIR BASE_DIR).
Local Abbreviation STYLE_FILE := (STYLE_FILE BASE_DIR).
Local Abbreviation loading_lines := (loading_lines markdown BASE_DIR).

Lemma build_document_with_readable chapters exercises toc w css :
  fs w !! STYLE_FILE = Some (TextFile css) →
  readable (fs w) CONTENT_DIR chapters →
  readable (fs w) EXERCISES_DIR exercises →
  build_document_with chapters exercises toc w
  = (Ok (document css COVER (build_toc toc)
           (Str.join (sections_of (fs w) CONTENT_DIR chapters
                      ++ sections_of (fs w) EXERCISES_DIR exercises))),
     put_lines (loading_lines (fs w) chapters exercises) w).
Proof.
  intros Hcss H1 H2. unfold Script.build_document_with, bind at 1, read_text.
  rewrite Hcss. unfold bind at 1. rewrite md_to_html_readable by done.
  unfold bind at 1, print. unfold bind at 1.
  rewrite md_to_html_readable by done.
  unfold bind, ret. simpl. do 2 f_equal. unfold put_lines, put_line, Script.loading_lines.
  simpl. f_equal. by rewrite <- !app_assoc.
Qed.

Lemma build_document_with_ok chapters exercises toc w doc w' :
  build_document_with chapters exercises toc w = (Ok doc, w') →
  ∃ css, fs w !! STYLE_FILE = Some (TextFile css)
    ∧ readable (fs w) CONTENT_DIR chapters
    ∧ readable (fs w) EXERCISES_DIR exercises.
Proof.
  unfold Script.build_document_with, bind at 1, read_text.
  destruct (fs w !! STYLE_FILE) as [[css|data|]|] eqn:Hcss; try discriminate.
  unfold bind at 1, Script.md_to_html.
  destruct (md_to_html_loop markdown CONTENT_DIR chapters [] w)
    as [[s1|e] w1] eqn:E1; [|discriminate].
  unfold bind at 1, print. unfold bind at 1.
  destruct (md_to_html_loop markdown EXERCISES_DIR exercises [] (put_line _ w1))
    as [[s2|e] w2] eqn:E2; [|discriminate].
  intros _. exists css. split; [done|].
  pose proof (md_to_html_loop_ok _ _ _ _ _ _ _ E1) as R1.
  rewrite (md_to_html_loop_readable _ _ _ _ _ R1) in E1. injection E1 as _ <-.
  apply md_to_html_loop_ok in E2. by split.
Qed.

Lemma texts_of_cons m dir f rest :
  texts_of m dir (f :: rest)
  = match text_at m (dir /: f) with
    | Some text => text :: texts_of m dir rest
    | None => texts_of m dir rest
    end.
Proof. reflexivity. Qed.

(** Only what is at the paths of the list matters to its sections. *)
Lemma sections_of_ext m1 m2 dir filenames :
  (∀ f, f ∈ filenames → m1 !! (dir /: f) = m2 !! (dir /: f)) →
  sections_of m1 dir filenames = sections_of m2 dir filenames.
Proof.
  intros H. unfold Script.sections_of. f_equal.
  induction filenames as [|f rest IH]; [reflexivity|].
  rewrite !texts_of_cons. unfold text_at. rewrite (H f) by left.
  rewrite IH; [done|]. intros g Hg. apply H. by right.
Qed.

Lemma readable_ext m1 m2 dir filenames :
  (∀ f, f ∈ filenames → m1 !! (dir /: f) = m2 !! (dir /: f)) →
  readable m1 dir filenames → readable m2 dir filenames.
Proof.
  intros H. unfold readable. rewrite !Forall_forall.
  intros Hr f Hf. rewrite <- (H f Hf). by apply Hr.
Qed.







Lemma build_toc_items_app entries items :
  build_toc_items entries items = items ++ (toc_item <$> entries).
Proof.
  revert items. induction entries as [|entry rest IH]; intros items.
  - simpl. by rewrite app_nil_r.
  - simpl. rewrite IH. by rewrite <- app_assoc.
Qed.

Lemma build_toc_items_fmap entries :
  build_toc_items entries [] = toc_item <$> entries.
Proof. by rewrite build_toc_items_app. Qed.

(** One text file, one section, and the world as it was. *)
Lemma conversion_sections dir f w text :
  fs w !! (dir /: f) = Some (TextFile text) →
  md_to_html dir [f] w = (Ok [render_section text], w).
Proof.
  intros H.
  rewrite md_to_html_readable by (constructor; [right; eauto|constructor]).
  rewrite (sections_of_cons_text _ _ _ _ _ text) by done.
  rewrite (warnings_of_cons_present _ _ _ _ (TextFile text)) by done.
  by rewrite put_lines_nil.
Qed.

(** ** C1 *)


(** ** C3 *)

(** C3.  Where a configured file is missing from its source directory,
    [md_to_html] does what it does on the files before it, prints the
    warning, does what it does on the files after it, and returns the
    sections of both parts: the unit is left out and the loop goes on.
    A missing file never makes [md_to_html] raise [FileNotFoundError]; with
    the other files readable it returns their sections. *)
Theorem missing_unit_is_skipped dir pre f post w :
  fs w !! (dir /: f) = None →
  md_to_html dir (pre ++ f :: post) w
    = (before <- md_to_html dir pre ;;
       print (PrintWarning f) ;;
       after <- md_to_html dir post ;;
       ret (before ++ after)) w
  ∧ (∀ e w' p, md_to_html dir (pre ++ f :: post) w = (Raise e, w') →
       e ≠ FileNotFoundError p)
  ∧ (readable (fs w) dir pre → readable (fs w) dir post →
       md_to_html dir (pre ++ f :: post) w
       = (Ok (sections_of (fs w) dir pre ++ sections_of (fs w) dir post),
          put_lines (warnings_of (fs w) dir pre
                     ++ PrintWarning f :: warnings_of (fs w) dir post) w)).
Proof.
  intros Hf. split_and!.
  - unfold Script.md_to_html. rewrite md_to_html_loop_app.
    unfold bind, print, ret.
    destruct (md_to_html_loop markdown dir pre [] w) as [[before|e] w1] eqn:E;
      [|done].
    apply md_to_html_loop_world in E as (Hfs & _ & _).
    rewrite md_to_html_loop_missing by (by rewrite Hfs).
    rewrite md_to_html_loop_acc. reflexivity.
  - intros e w' p H. unfold Script.md_to_html in H.
    apply md_to_html_loop_raise in H as (g & _ & [[_ ->] | [_ ->]]); discriminate.
  - intros Hpre Hpost. rewrite md_to_html_readable.
    + rewrite sections_of_app, warnings_of_app.
      by rewrite sections_of_cons_missing, warnings_of_cons_missing.
    + apply Forall_app. split; [done|]. constructor; [by left|done].
Qed.

(** ** C5 *)

(** C5.  Whenever [build_document] returns a document, the document is,
    character for character, the head with the text of the style sheet in
    its [<style>] element, the cover, the table of contents, every primary
    section in order, every supplementary section in order, one after the
    other with nothing between them, and the closing tags.  A section is
    the container around the converted text of one file that is there.  The
    table of contents is its frame around one item for each (title, flag)
    pair, in order, the flag choosing between the classes [chapter-entry]
    and [appendix-entry]; it is built from the pairs alone: it is the same
    whatever the filename lists are, and it is there in full when no content
    file is configured at all. *)
Theorem document_is_concatenation chapters exercises toc w doc w' :
  build_document_with chapters exercises toc w = (Ok doc, w') →
  let section text :=
    "<div class=" +:+ Str.dq +:+ "chapter" +:+ Str.dq +:+ ">" +:+ Str.nl +:+
    convert_checkboxes (markdown text) +:+ Str.nl +:+ "</div>" in
  let primary := section <$> texts_of (fs w) CONTENT_DIR chapters in
  let supplementary := section <$> texts_of (fs w) EXERCISES_DIR exercises in
  let item (entry : string * bool) :=
    "<li class=" +:+ Str.dq
    +:+ (if entry.2 then "chapter-entry" else "appendix-entry")
    +:+ Str.dq +:+ ">" +:+ entry.1 +:+ "</li>" in
  let outline :=
    Str.nl +:+
    "<div class=" +:+ Str.dq +:+ "toc" +:+ Str.dq +:+ ">" +:+ Str.nl +:+
    "    <h1>Table of Contents</h1>" +:+ Str.nl +:+
    "    <ul>" +:+ Str.nl +:+
    "        " +:+ foldr String.append "" (item <$> toc) +:+ Str.nl +:+
    "    </ul>" +:+ Str.nl +:+
    "</div>" +:+ Str.nl in
  let assembled css sections :=
    "<!DOCTYPE html>" +:+ Str.nl +:+
    "<html lang=" +:+ Str.dq +:+ "en" +:+ Str.dq +:+ ">" +:+ Str.nl +:+
    "<head>" +:+ Str.nl +:+
    "    <meta charset=" +:+ Str.dq +:+ "UTF-8" +:+ Str.dq +:+ ">" +:+ Str.nl +:+
    "    <style>" +:+ Str.nl +:+
    css +:+ Str.nl +:+
    "    </style>" +:+ Str.nl +:+
    "</head>" +:+ Str.nl +:+
    "<body>" +:+ Str.nl +:+
    COVER +:+ Str.nl +:+
    outline +:+ Str.nl +:+
    foldr String.append "" sections +:+ Str.nl +:+
    "</body>" +:+ Str.nl +:+
    "</html>" in
  ∃ css,
    read_text STYLE_FILE w = (Ok css, w)
    ∧ fst (md_to_html CONTENT_DIR chapters w) = Ok primary
    ∧ fst (md_to_html EXERCISES_DIR exercises w) = Ok supplementary
    ∧ doc = assembled css (primary ++ supplementary)
    ∧ build_toc toc = outline
    ∧ (∀ title,
         toc_item (title, true)
           = "<li class=" +:+ Str.dq +:+ "chapter-entry" +:+ Str.dq +:+ ">"
             +:+ title +:+ "</li>"
         ∧ toc_item (title, false)
           = "<li class=" +:+ Str.dq +:+ "appendix-entry" +:+ Str.dq +:+ ">"
             +:+ title +:+ "</li>")
    ∧ fst (build_document_with [] [] toc w) = Ok (assembled css []).
Proof.
  intros H section primary supplementary item outline assembled.
  destruct (build_document_with_ok _ _ _ _ _ _ H) as (css & Hcss & R1 & R2).
  rewrite (build_document_with_readable _ _ _ _ css) in H by done.
  injection H as <- _.
  assert (build_toc toc = outline) as Htoc.
  { assert (toc_item <$> toc = item <$> toc) as Hitems
      by (apply list_fmap_ext; by intros _ [title []] _).
    unfold build_toc. by rewrite build_toc_items_fmap, StrFacts.join_foldr, Hitems. }
  exists css. split_and!.
  - unfold read_text. by rewrite Hcss.
  - by rewrite md_to_html_readable.
  - by rewrite md_to_html_readable.
  - unfold document. rewrite Htoc, StrFacts.join_foldr. reflexivity.
  - exact Htoc.
  - done.
  - rewrite (build_document_with_readable _ _ _ _ css); [|done|constructor..].
    unfold document. by rewrite Htoc.
Qed.

(** ** C10 *)

(** C10.  A chapter and an exercise go into the same container, a [div] of
    class [chapter]: the same text gives the same section from the content
    directory and from the exercises directory.  The document does not tell
    the two kinds apart either: two builds that find the same style sheet
    and the same texts in the same overall order return the same document,
    wherever the line between primary and supplementary files runs. *)
Theorem sections_share_one_container :
  (∀ text,
     render_section text
     = "<div class=" +:+ Str.dq +:+ "chapter" +:+ Str.dq +:+ ">" +:+ Str.nl +:+
       convert_checkboxes (markdown text) +:+ Str.nl +:+ "</div>")
  ∧ (∀ f g w text,
       fs w !! (CONTENT_DIR /: f) = Some (TextFile text) →
       fs w !! (EXERCISES_DIR /: g) = Some (TextFile text) →
       fst (md_to_html CONTENT_DIR [f] w) = Ok [render_section text]
       ∧ fst (md_to_html EXERCISES_DIR [g] w) = Ok [render_section text])
  ∧ (∀ chapters1 exercises1 chapters2 exercises2 toc w1 w2 doc1 doc2 w1' w2',
       build_document_with chapters1 exercises1 toc w1 = (Ok doc1, w1') →
       build_document_with chapters2 exercises2 toc w2 = (Ok doc2, w2') →
       fs w1 !! STYLE_FILE = fs w2 !! STYLE_FILE →
       texts_of (fs w1) CONTENT_DIR chapters1
         ++ texts_of (fs w1) EXERCISES_DIR exercises1
       = texts_of (fs w2) CONTENT_DIR chapters2
         ++ texts_of (fs w2) EXERCISES_DIR exercises2 →
       doc1 = doc2).
Proof.
  split_and!.
  - reflexivity.
  - intros f g w text Hf Hg.
    by rewrite (conversion_sections CONTENT_DIR f w text Hf),
      (conversion_sections EXERCISES_DIR g w text Hg).
  - intros c1 e1 c2 e2 toc w1 w2 doc1 doc2 w1' w2' H1 H2 Hcss Htexts.
    destruct (build_document_with_ok _ _ _ _ _ _ H1) as (css1 & Hcss1 & R1 & R1').
    destruct (build_document_with_ok _ _ _ _ _ _ H2) as (css2 & Hcss2 & R2 & R2').
    rewrite (build_document_with_readable _ _ _ _ css1) in H1 by done.
    rewrite (build_document_with_readable _ _ _ _ css2) in H2 by done.
    injection H1 as <- _. injection H2 as <- _.
    assert (css1 = css2) as -> by congruence.
    unfold Script.sections_of. by rewrite <- !fmap_app, Htexts.
Qed.

End Assembly.



(** ** Rendering *)

Section Rendering.
Variable markdown : string → string.
Variable browser : Browser.
Variable BASE_DIR : Path.

Local Abbreviation render_pdf := (render_pdf browser).
Local Abbreviation main := (main markdown browser BASE_DIR).
Local Abbreviation build_document := (build_document markdown BASE_DIR).
Local Abbreviation STYLE_FILE := (STYLE_FILE BASE_DIR).
Local Abbreviation OUTPUT_DIR := (OUTPUT_DIR BASE_DIR).
Local Abbreviation HTML_FILE := (HTML_FILE BASE_DIR).
Local Abbreviation PDF_FILE := (PDF_FILE BASE_DIR).

Lemma playwright_running_stop calls mid :
  playwright_running (calls ++ mid ++ [Stop]) = false.
Proof. unfold playwright_running. by rewrite !fold_left_app. Qed.

Lemma browser_alive_stop calls mid :
  browser_alive (calls ++ mid ++ [Stop]) = false.
Proof. unfold browser_alive. by rewrite !fold_left_app. Qed.

(** Each effect either raises and leaves the world alone, or goes through
    and changes the world in its one way. *)
Lemma call_cases c w :
  call browser c w = (Raise (PlaywrightError c), w)
  ∨ call browser c w = (Ok tt, log_call c w).
Proof. unfold call. destruct (call_fails browser c w); auto. Qed.

Lemma write_node_cases p n w :
  (∃ e, write_node p n w = (Raise e, w))
  ∨ write_node p n w = (Ok tt, set_fs (<[p := n]>) w).
Proof.
  unfold write_node. destruct (fs w !! p) as [[| |]|]; eauto.
  destruct (no_room (fs w) p); eauto.
Qed.

Lemma page_goto_cases hp w :
  (∃ e, page_goto browser hp w = (Raise e, w))
  ∨ ∃ html, fs w !! hp = Some (TextFile html)
      ∧ page_goto browser hp w = (Ok tt, set_page html (log_call Goto w)).
Proof.
  unfold page_goto. destruct (fs w !! hp) as [[html| |]|]; eauto.
  destruct (call_cases Goto w) as [-> | ->]; eauto.
Qed.

Lemma page_pdf_cases pp options w :
  (∃ e, page_pdf browser pp options w = (Raise e, w))
  ∨ page_pdf browser pp options w
    = (Ok tt, log_call Pdf
                (set_fs (<[pp := BinaryFile (print_to_pdf browser options (page w))]>) w)).
Proof.
  unfold page_pdf. destruct (call_fails browser Pdf w); eauto.
  destruct (write_node_cases pp (BinaryFile (print_to_pdf browser options (page w))) w)
    as [[e ->] | ->]; eauto.
Qed.

(** The block of [render_pdf]: the calls that went through are the first
    few of the six, all six when the block returns; only the PDF file is
    written, and it holds the print of the text at [hp]. *)
Lemma render_block hp pp w r w' :
  (call browser Launch ;;
   call browser NewPage ;;
   page_goto browser hp ;;
   call browser WaitForLoadState ;;
   page_pdf browser pp PDF_OPTIONS ;;
   call browser BrowserClose) w = (r, w') →
  ∃ mid,
    chromium w' = chromium w ++ mid
    ∧ mid `prefix_of` block_calls
    ∧ stdout w' = stdout w
    ∧ (∀ p, p ≠ pp → fs w' !! p = fs w !! p)
    ∧ (r = Ok tt →
         mid = block_calls
         ∧ ∃ html, fs w !! hp = Some (TextFile html)
             ∧ fs w' = <[pp := BinaryFile (print_to_pdf browser PDF_OPTIONS html)]> (fs w)).
Proof.
  unfold bind.
  destruct (call_cases Launch w) as [-> | ->].
  { intros [= <- <-]. exists []. rewrite app_nil_r. split_and!; try done.
    by eexists. }
  destruct (call_cases NewPage (log_call Launch w)) as [-> | ->].
  { intros [= <- <-]. exists [Launch]. split_and!; try done. by eexists. }
  destruct (page_goto_cases hp (log_call NewPage (log_call Launch w)))
    as [[e ->] | (html & Hhtml & ->)].
  { intros [= <- <-]. exists [Launch; NewPage]. simpl. rewrite <- app_assoc.
    split_and!; try done. by eexists. }
  match goal with |- context [call browser WaitForLoadState ?w0] =>
    destruct (call_cases WaitForLoadState w0) as [-> | ->] end.
  { intros [= <- <-]. exists [Launch; NewPage; Goto]. simpl. rewrite <- !app_assoc.
    split_and!; try done. by eexists. }
  match goal with |- context [page_pdf browser pp PDF_OPTIONS ?w0] =>
    destruct (page_pdf_cases pp PDF_OPTIONS w0) as [[e ->] | ->] end.
  { intros [= <- <-]. exists [Launch; NewPage; Goto; WaitForLoadState]. simpl.
    rewrite <- !app_assoc. split_and!; try done. by eexists. }
  match goal with |- context [call browser BrowserClose ?w0] =>
    destruct (call_cases BrowserClose w0) as [-> | ->] end.
  { intros [= <- <-]. exists [Launch; NewPage; Goto; WaitForLoadState; Pdf]. simpl.
    rewrite <- !app_assoc. split_and!; try done.
    - by eexists.
    - intros p Hp. by rewrite lookup_insert_ne. }
  intros [= <- <-]. exists block_calls. simpl. rewrite <- !app_assoc.
  split_and!; try done.
  - intros p Hp. by rewrite lookup_insert_ne.
  - intros _. split; [done|]. exists html. split; [|done]. exact Hhtml.
Qed.

(** [render_pdf], outcome by outcome: the intermediate file could not be
    written; or it was and Playwright did not start; or Playwright started,
    the block ran as far as it got, and Playwright stopped. *)
Lemma render_pdf_cases html hp pp w r w' :
  render_pdf html hp pp w = (r, w') →
  let w1 := set_fs (<[hp := TextFile html]>) w in
  (∃ e, write_text hp html w = (Raise e, w) ∧ r = Raise e ∧ w' = w)
  ∨ (write_text hp html w = (Ok tt, w1)
     ∧ r = Raise (PlaywrightError SyncPlaywright)
     ∧ w' = w1)
  ∨ (write_text hp html w = (Ok tt, w1)
     ∧ ∃ mid,
         chromium w' = chromium w ++ SyncPlaywright :: mid ++ [Stop]
         ∧ mid `prefix_of` block_calls
         ∧ (∀ p, p ≠ pp → fs w' !! p = fs w1 !! p)
         ∧ (r = Ok tt →
              let pdf := print_to_pdf browser PDF_OPTIONS html in
              mid = block_calls
              ∧ fs w' = <[pp := BinaryFile pdf]> (fs w1)
              ∧ stdout w' = stdout w ++ [PrintPdfSaved pp (String.length pdf)])).
Proof.
  intros H w1. unfold Script.render_pdf, bind at 1, write_text in H.
  unfold write_text.
  destruct (write_node_cases hp (TextFile html) w) as [[e He] | He];
    rewrite He in H |- *.
  { injection H as <- <-. left. by exists e. }
  right. fold w1 in H |- *.
  unfold bind at 1, with_ in H.
  destruct (call_cases SyncPlaywright w1) as [Hs | Hs]; rewrite Hs in H.
  { injection H as <- <-. by left. }
  right. split; [done|]. cbv beta in H.
  match type of H with context [bind (call browser Launch) ?k ?w0] =>
    destruct (bind (call browser Launch) k w0) as [r0 w3] eqn:E end.
  apply render_block in E as (mid & Hcalls & Hmid & Hout & Hfs & Hok).
  exists mid. unfold playwright_stop in H. destruct r0 as [[]|e].
  - destruct (Hok eq_refl) as (-> & html0 & Hhtml & Hfs3).
    assert (html0 = html) as ->.
    { simpl in Hhtml. rewrite lookup_insert_eq in Hhtml. congruence. }
    unfold bind, stat_size, print in H. simpl fs in H.
    rewrite Hfs3, lookup_insert_eq in H. injection H as <- <-. simpl.
    rewrite Hcalls, Hout, Hfs3. simpl. rewrite <- !app_assoc. split_and!; try done.
    intros p Hp. by rewrite lookup_insert_ne.
  - injection H as <- <-. simpl. rewrite Hcalls. simpl. rewrite <- !app_assoc.
    split_and!; done.
Qed.

Lemma write_node_raises p n w e w' :
  write_node p n w = (Raise e, w') → ∀ c, e ≠ PlaywrightError c.
Proof.
  unfold write_node, no_room. intros H c ->.
  repeat case_match; simplify_eq.
Qed.

(** ** C8 *)

(** C8.  Whatever the browser does, and whether [render_pdf] returns or
    raises, the log of browser calls it leaves is either untouched, when
    Playwright was never started, or the start of Playwright, then the
    first few of the six calls of the block, all six when [render_pdf]
    returns, and in the last place the stop of Playwright: no Playwright
    instance and no browser is left running.  An exception of one of the
    calls of the block is raised after the stop. *)
Theorem playwright_always_stopped html hp pp w :
  let r := render_pdf html hp pp w in
  let stopped := ∃ mid,
    chromium (snd r) = chromium w ++ SyncPlaywright :: mid ++ [Stop]
    ∧ mid `prefix_of` block_calls
    ∧ (fst r = Ok tt → mid = block_calls)
    ∧ playwright_running (chromium (snd r)) = false
    ∧ browser_alive (chromium (snd r)) = false in
  ((fst r ≠ Ok tt ∧ chromium (snd r) = chromium w) ∨ stopped)
  ∧ (∀ c, fst r = Raise (PlaywrightError c) → c ≠ SyncPlaywright → stopped).
Proof.
  intros r stopped.
  destruct r as [o w'] eqn:E. subst r. simpl in stopped |- *.
  assert (∀ mid,
    chromium w' = chromium w ++ SyncPlaywright :: mid ++ [Stop] →
    mid `prefix_of` block_calls →
    (o = Ok tt → mid = block_calls) → stopped) as Hstopped.
  { intros mid Hcalls Hmid Hok. exists mid. split_and!; try done.
    - rewrite Hcalls. apply (playwright_running_stop _ (SyncPlaywright :: mid)).
    - rewrite Hcalls. apply (browser_alive_stop _ (SyncPlaywright :: mid)). }
  destruct (render_pdf_cases _ _ _ _ _ _ E)
    as [(e & Hw & -> & ->) | [(Hw & -> & ->) | (Hw & mid & Hcalls & Hmid & _ & Hok)]].
  - split; [by left|]. intros c [= ->] _.
    by destruct (write_node_raises _ _ _ _ _ Hw c).
  - split; [by left|]. by intros c [= <-] Hc.
  - assert stopped as Hs.
    { apply (Hstopped mid); [done..|]. intros Ho. by destruct (Hok Ho). }
    split; [by right|done].
Qed.

Lemma html_not_pdf : HTML_FILE ≠ PDF_FILE.
Proof. intros H. by apply joinpath_inj in H as [_ ?]. Qed.

Lemma html_not_output : HTML_FILE ≠ OUTPUT_DIR.
Proof.
  intros H. apply (f_equal length) in H.
  unfold Script.HTML_FILE in H. rewrite joinpath_length in H by done. lia.
Qed.

Lemma pdf_not_output : PDF_FILE ≠ OUTPUT_DIR.
Proof.
  intros H. apply (f_equal length) in H.
  unfold Script.PDF_FILE in H. rewrite joinpath_length in H by done. lia.
Qed.

Lemma style_not_output : STYLE_FILE ≠ OUTPUT_DIR.
Proof. intros H. by apply joinpath_inj in H as [_ ?]. Qed.

(** [mkdir] makes the one directory or changes nothing. *)
Lemma mkdir_exist_ok_cases p w :
  (∃ e, mkdir_exist_ok p w = (Raise e, w))
  ∨ mkdir_exist_ok p w = (Ok tt, w)
  ∨ mkdir_exist_ok p w = (Ok tt, set_fs (<[p := Directory]>) w).
Proof.
  unfold mkdir_exist_ok. destruct (fs w !! p) as [[| |]|]; eauto.
  destruct (no_room (fs w) p); eauto.
Qed.

Lemma mkdir_exist_ok_world p w r w' :
  mkdir_exist_ok p w = (r, w') →
  chromium w' = chromium w ∧ page w' = page w ∧ stdout w' = stdout w
  ∧ ∀ q, q ≠ p → fs w' !! q = fs w !! q.
Proof.
  destruct (mkdir_exist_ok_cases p w) as [[e ->] | [-> | ->]];
    intros [= <- <-]; split_and!; try done.
  intros q Hq. simpl. by rewrite lookup_insert_ne.
Qed.

(** ** C4 *)

(** C4.  When the style sheet is missing or cannot be read as text,
    [read_text] raises, [build_document] raises that exception before it
    does anything else, and [main] raises without a single browser call and
    without writing the intermediate or the final file: nothing on disk has
    changed but, at most, the output directory that [main] made first.  The
    exception [main] raises is that of the style sheet, unless making the
    output directory had failed already. *)
Theorem missing_style_sheet_aborts argv w :
  (∀ css, fs w !! STYLE_FILE ≠ Some (TextFile css)) →
  ∃ e,
    read_text STYLE_FILE w = (Raise e, w)
    ∧ build_document w = (Raise e, w)
    ∧ ∃ e' w',
        main argv w = (Raise e', w')
        ∧ chromium w' = chromium w
        ∧ page w' = page w
        ∧ fs w' !! HTML_FILE = fs w !! HTML_FILE
        ∧ fs w' !! PDF_FILE = fs w !! PDF_FILE
        ∧ (∀ p, p ≠ OUTPUT_DIR → fs w' !! p = fs w !! p)
        ∧ (fst (mkdir_exist_ok OUTPUT_DIR w) = Ok tt → e' = e).
Proof.
  intros Hstyle.
  assert (∀ w0, fs w0 !! STYLE_FILE = fs w !! STYLE_FILE →
    ∃ e, read_text STYLE_FILE w = (Raise e, w)
       ∧ read_text STYLE_FILE w0 = (Raise e, w0)
       ∧ build_document w0 = (Raise e, w0)) as Hraise.
  { intros w0 Hfs.
    unfold Script.build_document, build_document_with, bind, read_text.
    rewrite Hfs. destruct (fs w !! STYLE_FILE) as [[css|data|]|] eqn:E; eauto.
    by destruct (Hstyle css). }
  destruct (Hraise w eq_refl) as (e & Hread & _ & Hbuild).
  exists e. split_and!; [done..|].
  unfold Script.main, bind at 1.
  destruct (mkdir_exist_ok OUTPUT_DIR w) as [[[]|e0] w0] eqn:Hmk.
  - apply mkdir_exist_ok_world in Hmk as (Hc & Hp & _ & Hfs).
    unfold bind at 1, print. unfold bind at 1.
    destruct (Hraise (put_line PrintBuilding w0)) as (e1 & Hread1 & _ & Hbuild1).
    { simpl. apply Hfs, style_not_output. }
    assert (e1 = e) as -> by congruence.
    rewrite Hbuild1. exists e, (put_line PrintBuilding w0). simpl.
    split_and!; try done.
    + apply Hfs, html_not_output.
    + apply Hfs, pdf_not_output.
  - apply mkdir_exist_ok_world in Hmk as (Hc & Hp & _ & Hfs).
    exists e0, w0. split_and!; try done.
    + apply Hfs, html_not_output.
    + apply Hfs, pdf_not_output.
Qed.

(** ** C6 *)

(** C6.  [render_pdf] writes the document to the intermediate file before
    anything else: if that write raises, nothing has happened; if not, the
    file holds the document, as given, when [render_pdf] is over.  When
    [main] returns, the intermediate file is gone if [--html] was not given
    and holds the assembled document if it was.  Deleting a file that is
    not there, as [main] deletes it, is no error. *)
Theorem intermediate_artifact argv w w' :
  main argv w = (Ok tt, w') →
  (∃ w0 doc w1 w2,
     mkdir_exist_ok OUTPUT_DIR w = (Ok tt, w0)
     ∧ build_document (put_line PrintBuilding w0) = (Ok doc, w1)
     ∧ render_pdf doc HTML_FILE PDF_FILE w1 = (Ok tt, w2)
     ∧ fs w2 !! HTML_FILE = Some (TextFile doc)
     ∧ ("--html" ∉ argv → fs w' !! HTML_FILE = None)
     ∧ ("--html" ∈ argv → fs w' !! HTML_FILE = Some (TextFile doc))
     ∧ fs w' !! PDF_FILE
       = Some (BinaryFile (print_to_pdf browser PDF_OPTIONS doc)))
  ∧ (∀ html hp pp v r v',
       render_pdf html hp pp v = (r, v') →
       (∃ e, write_text hp html v = (Raise e, v) ∧ r = Raise e ∧ v' = v)
       ∨ (write_text hp html v = (Ok tt, set_fs (<[hp := TextFile html]>) v)
          ∧ (hp ≠ pp → fs v' !! hp = Some (TextFile html))))
  ∧ (∀ p v, fs v !! p = None → unlink_missing_ok p v = (Ok tt, v)).
Proof.
  intros H. split_and!.
  - unfold Script.main, bind at 1 in H.
    destruct (mkdir_exist_ok OUTPUT_DIR w) as [[[]|e0] w0] eqn:Hmk; [|done].
    unfold bind at 1, print in H. unfold bind at 1 in H.
    destruct (build_document (put_line PrintBuilding w0)) as [[doc|e1] w1] eqn:Hb;
      [|done].
    unfold bind at 1 in H.
    destruct (render_pdf doc HTML_FILE PDF_FILE w1) as [[[]|e2] w2] eqn:Hr; [|done].
    exists w0, doc, w1, w2.
    destruct (render_pdf_cases _ _ _ _ _ _ Hr)
      as [(e & _ & [=] & _) | [(_ & [=] & _) | (_ & mid & _ & _ & _ & Hok)]].
    destruct (Hok eq_refl) as (_ & Hfs & _).
    assert (fs w2 !! HTML_FILE = Some (TextFile doc)) as Hhtml.
    { rewrite Hfs, lookup_insert_ne by (symmetry; apply html_not_pdf).
      simpl. apply lookup_insert_eq. }
    assert (fs w2 !! PDF_FILE
            = Some (BinaryFile (print_to_pdf browser PDF_OPTIONS doc))) as Hpdf.
    { rewrite Hfs. apply lookup_insert_eq. }
    split_and!; try done.
    + intros Hflag. rewrite bool_decide_eq_false_2 in H by done.
      unfold bind, unlink_missing_ok, print in H. simpl in H. rewrite Hhtml in H.
      injection H as <-. simpl. apply lookup_delete_eq.
    + intros Hflag. rewrite bool_decide_eq_true_2 in H by done.
      unfold bind, ret, print in H. simpl in H. by injection H as <-.
    + destruct (bool_decide ("--html" ∈ argv)).
      * unfold bind, ret, print in H. simpl in H. by injection H as <-.
      * unfold bind, unlink_missing_ok, print in H. simpl in H. rewrite Hhtml in H.
        injection H as <-. simpl.
        by rewrite lookup_delete_ne by apply html_not_pdf.
  - intros html hp pp v r v' Hr.
    destruct (render_pdf_cases _ _ _ _ _ _ Hr)
      as [(e & Hw & -> & ->) | [(Hw & -> & ->) | (Hw & mid & _ & _ & Hfs & _)]].
    + left. by exists e.
    + right. split; [done|]. intros _. simpl. apply lookup_insert_eq.
    + right. split; [done|]. intros Hne. rewrite Hfs by done. apply lookup_insert_eq.
  - intros p v Hp. unfold unlink_missing_ok. by rewrite Hp.
Qed.

(** ** A build that goes through *)

Lemma is_dir_lookup m p : m !! p = Some Directory → is_dir m p = true.
Proof. intros H. unfold is_dir. destruct p; [done|]. by rewrite H. Qed.

Lemma joinpath_not_self p a : is_file_name a = true → p /: a ≠ p.
Proof.
  intros Ha H. apply (f_equal length) in H.
  rewrite joinpath_length in H by done. lia.
Qed.

Lemma write_node_in_directory dir a n w :
  is_file_name a = true →
  fs w !! dir = Some Directory →
  fs w !! (dir /: a) ≠ Some Directory →
  write_node (dir /: a) n w = (Ok tt, set_fs (<[dir /: a := n]>) w).
Proof.
  intros Ha Hdir Hfile. unfold write_node, no_room.
  rewrite parent_joinpath by done.
  rewrite (is_dir_lookup _ _ Hdir). by destruct (fs w !! (dir /: a)) as [[| |]|].
Qed.

Lemma call_goes_through c w :
  (∀ c v, call_fails browser c v = false) →
  call browser c w = (Ok tt, log_call c w).
Proof. intros H. unfold call. by rewrite H. Qed.

(** With a browser that does not fail and two files to write in one
    directory, [render_pdf] returns, both files are written, all calls are
    made and the size of the PDF is printed. *)
Lemma render_pdf_goes_through html dir a b w :
  (∀ c v, call_fails browser c v = false) →
  is_file_name a = true →
  is_file_name b = true →
  a ≠ b →
  fs w !! dir = Some Directory →
  fs w !! (dir /: a) ≠ Some Directory →
  fs w !! (dir /: b) ≠ Some Directory →
  let pdf := print_to_pdf browser PDF_OPTIONS html in
  render_pdf html (dir /: a) (dir /: b) w
  = (Ok tt,
     mkWorld (<[dir /: b := BinaryFile pdf]> (<[dir /: a := TextFile html]> (fs w)))
       (stdout w ++ [PrintPdfSaved (dir /: b) (String.length pdf)])
       (chromium w ++ SyncPlaywright :: block_calls ++ [Stop])
       html).
Proof.
  intros Hbrowser Hna Hnb Hab Hdir Ha Hb pdf.
  assert (dir /: a ≠ dir /: b) as Hpaths.
  { intros H. by apply joinpath_inj in H as [_ ?]. }
  unfold Script.render_pdf, bind at 1, write_text.
  rewrite write_node_in_directory by done.
  unfold bind at 1, with_. rewrite call_goes_through by done.
  unfold bind at 1. rewrite call_goes_through by done.
  unfold bind at 1. rewrite call_goes_through by done.
  unfold bind at 1, page_goto. simpl fs. rewrite lookup_insert_eq.
  rewrite call_goes_through by done.
  unfold bind at 1. rewrite call_goes_through by done.
  unfold bind at 1, page_pdf. rewrite Hbrowser.
  rewrite write_node_in_directory.
  - rewrite call_goes_through by done.
    unfold playwright_stop, bind, stat_size, print. simpl.
    rewrite lookup_insert_eq. unfold put_line, block_calls. simpl.
    by rewrite <- !app_assoc.
  - done.
  - simpl fs. rewrite lookup_insert_ne by (by apply joinpath_not_self). done.
  - simpl fs. by rewrite lookup_insert_ne.
Qed.

(** X1.  The scenario of the specification in which everything is in place: the
    directory of the script is there, the output directory is missing or is
    a directory, the style sheet and every configured file that is there
    are text, nothing but a file is in the way of the two artifacts, and the
    browser does not fail.  Then [main] returns; the PDF is the print of the
    assembled document; the intermediate file is kept with [--html] and
    gone without; Playwright was started and stopped. *)
Theorem main_goes_through argv w css :
  (∀ c v, call_fails browser c v = false) →
  is_dir (fs w) BASE_DIR = true →
  fs w !! OUTPUT_DIR = None ∨ fs w !! OUTPUT_DIR = Some Directory →
  fs w !! STYLE_FILE = Some (TextFile css) →
  readable (fs w) (CONTENT_DIR BASE_DIR) CHAPTERS →
  readable (fs w) (EXERCISES_DIR BASE_DIR) EXERCISES →
  fs w !! HTML_FILE ≠ Some Directory →
  fs w !! PDF_FILE ≠ Some Directory →
  let doc :=
    document css COVER (build_toc TOC_ENTRIES)
      (Str.join (sections_of markdown (fs w) (CONTENT_DIR BASE_DIR) CHAPTERS
                 ++ sections_of markdown (fs w) (EXERCISES_DIR BASE_DIR) EXERCISES)) in
  let pdf := print_to_pdf browser PDF_OPTIONS doc in
  ∃ w',
    main argv w = (Ok tt, w')
    ∧ fs w' !! PDF_FILE = Some (BinaryFile pdf)
    ∧ fs w' !! HTML_FILE
      = (if bool_decide ("--html" ∈ argv) then Some (TextFile doc) else None)
    ∧ chromium w' = chromium w ++ SyncPlaywright :: block_calls ++ [Stop]
    ∧ (∀ p, p ≠ OUTPUT_DIR → p ≠ HTML_FILE → p ≠ PDF_FILE →
         fs w' !! p = fs w !! p).
Proof.
  intros Hbrowser Hbase Hout Hcss Hr1 Hr2 Hhtml Hpdf doc pdf.
  assert (∃ w0, mkdir_exist_ok OUTPUT_DIR w = (Ok tt, w0)
            ∧ fs w0 !! OUTPUT_DIR = Some Directory
            ∧ chromium w0 = chromium w
            ∧ ∀ p, p ≠ OUTPUT_DIR → fs w0 !! p = fs w !! p) as (w0 & Hmk & Hdir & Hc0 & Hfs0).
  { unfold mkdir_exist_ok, no_room. destruct Hout as [Hnone | Hsome].
    - rewrite Hnone. unfold Script.OUTPUT_DIR at 1 2.
      rewrite parent_joinpath by done. rewrite Hbase.
      eexists. split; [done|]. simpl. split_and!; try done.
      + apply lookup_insert_eq.
      + intros p Hp. by rewrite lookup_insert_ne.
    - rewrite Hsome. by exists w. }
  assert (∀ (dir : string) filenames f,
            is_file_name dir = true →
            Forall (λ g, is_file_name g = true) filenames → f ∈ filenames →
            BASE_DIR /: dir /: f ≠ OUTPUT_DIR) as Hdeep.
  { intros dir filenames f Hd Hnames Hf H. rewrite Forall_forall in Hnames.
    apply (f_equal length) in H. unfold Script.OUTPUT_DIR in H.
    rewrite !joinpath_length in H by (done || by apply Hnames). lia. }
  pose proof chapters_are_file_names as Hchapters.
  pose proof exercises_are_file_names as Hexercises.
  set (w1 := put_line PrintBuilding w0).
  assert (build_document w1
          = (Ok doc, put_lines (loading_lines markdown BASE_DIR (fs w1)
                                  CHAPTERS EXERCISES) w1)) as Hbuild.
  { unfold Script.build_document.
    rewrite (build_document_with_readable _ _ _ _ _ _ css).
    - subst doc. simpl fs.
      rewrite (sections_of_ext _ (fs w0) (fs w) (CONTENT_DIR BASE_DIR))
        by (intros f Hf; apply Hfs0; by apply (Hdeep "content" CHAPTERS)).
      by rewrite (sections_of_ext _ (fs w0) (fs w) (EXERCISES_DIR BASE_DIR))
        by (intros f Hf; apply Hfs0; by apply (Hdeep "exercises" EXERCISES)).
    - simpl. rewrite Hfs0 by apply style_not_output. done.
    - apply (readable_ext (fs w)); [|done]. intros f Hf. symmetry.
      apply Hfs0. by apply (Hdeep "content" CHAPTERS).
    - apply (readable_ext (fs w)); [|done]. intros f Hf. symmetry.
      apply Hfs0. by apply (Hdeep "exercises" EXERCISES). }
  set (w2 := put_lines _ w1) in Hbuild.
  assert (fs w2 = fs w0) as Hfs2 by reflexivity.
  assert (chromium w2 = chromium w0) as Hc2 by reflexivity.
  pose proof (render_pdf_goes_through doc OUTPUT_DIR
                "AI-Security-Architecture-Guide.html"
                "AI-Security-Architecture-Guide.pdf" w2 Hbrowser) as Hrender.
  cbv zeta in Hrender. fold pdf in Hrender.
  change (OUTPUT_DIR /: "AI-Security-Architecture-Guide.html") with HTML_FILE in Hrender.
  change (OUTPUT_DIR /: "AI-Security-Architecture-Guide.pdf") with PDF_FILE in Hrender.
  rewrite Hfs2 in Hrender.
  specialize (Hrender eq_refl eq_refl ltac:(done) Hdir).
  rewrite !Hfs0 in Hrender by (apply html_not_output || apply pdf_not_output).
  specialize (Hrender Hhtml Hpdf).
  unfold Script.main, bind at 1. rewrite Hmk.
  unfold bind at 1, print. unfold bind at 1. fold w1. rewrite Hbuild.
  unfold bind at 1. rewrite Hrender.
  destruct (bool_decide ("--html" ∈ argv)); simpl negb; cbv iota.
  - eexists. unfold bind, ret, print. split; [reflexivity|]. simpl.
    rewrite ?Hc2, ?Hc0. split_and!; try done.
    + apply lookup_insert_eq.
    + rewrite lookup_insert_ne by (symmetry; apply html_not_pdf).
      apply lookup_insert_eq.
    + intros p H1 H2 H3. rewrite !lookup_insert_ne by done. by apply Hfs0.
  - unfold bind, unlink_missing_ok, print. simpl fs.
    rewrite lookup_insert_ne by (symmetry; apply html_not_pdf).
    rewrite lookup_insert_eq. eexists. split; [reflexivity|]. simpl.
    rewrite ?Hc2, ?Hc0. split_and!; try done.
    + rewrite lookup_delete_ne by apply html_not_pdf. apply lookup_insert_eq.
    + apply lookup_delete_eq.
    + intros p H1 H2 H3. rewrite lookup_delete_ne by done.
      rewrite !lookup_insert_ne by done. by apply Hfs0.
Qed.

End Rendering.

(** ** The script at work on the small guide *)

Section Runs.

Example joinpath_parses_the_name :
  ["guide"; "content"] /: "a.md" = ["guide"; "content"; "a.md"]
  ∧ ["guide"; "content"] /: "./a.md" = ["guide"; "content"; "a.md"]
  ∧ ["guide"; "content"] /: "drafts//a.md" = ["guide"; "content"; "drafts"; "a.md"]
  ∧ ["guide"; "content"] /: "" = ["guide"; "content"]
  ∧ ["guide"; "content"] /: "../a.md" = ["guide"; "content"; ".."; "a.md"]
  ∧ ["guide"; "content"] /: "/srv/a.md" = ["srv"; "a.md"].
Proof. repeat split. Qed.

Example replace_leftmost : Str.replace "ab" "X" "aabab" = "aXX".
Proof. reflexivity. Qed.

Example replace_does_not_overlap : Str.replace "aa" "b" "aaa" = "ba".
Proof. reflexivity. Qed.

Example replace_empty_pattern : Str.replace "" "-" "abc" = "-a-b-c-".
Proof. reflexivity. Qed.

Example convert_checkboxes_list_items :
  convert_checkboxes "<li>[ ] a</li><li>[x] b [X] [] [  ]</li>"
  = "<li>" +:+ unchecked_box +:+ " a</li><li>" +:+ checked_box
    +:+ " b [X] [] [  ]</li>".
Proof. reflexivity. Qed.

Example shipped_lists_have_no_repetition : NoDup CHAPTERS ∧ NoDup EXERCISES.
Proof.
  split.
  - apply (bool_decide_unpack (NoDup CHAPTERS)). vm_compute. exact I.
  - apply (bool_decide_unpack (NoDup EXERCISES)). vm_compute. exact I.
Qed.

Example main_builds_the_guide :
  let w' := snd (main sample_markdown sample_browser sample_base ["build.py"]
                   sample_world) in
  fst (main sample_markdown sample_browser sample_base ["build.py"] sample_world)
    = Ok tt
  ∧ chromium w' = SyncPlaywright :: block_calls ++ [Stop]
  ∧ fs w' !! HTML_FILE sample_base = None
  ∧ is_Some (fs w' !! PDF_FILE sample_base)
  ∧ PrintLoadedChapters 2 ∈ stdout w'
  ∧ PrintLoadedExercises 1 ∈ stdout w'.
Proof.
  vm_compute. split_and!; try reflexivity.
  - by eexists.
  - apply list_elem_of_In. simpl. tauto.
  - apply list_elem_of_In. simpl. tauto.
Qed.

Example navigation_fails_and_playwright_stops :
  let r := render_pdf (failing_browser Goto) "<html></html>"
             (HTML_FILE sample_base) (PDF_FILE sample_base)
             (set_fs (<[OUTPUT_DIR sample_base := Directory]>) sample_world) in
  fst r = Raise (PlaywrightError Goto)
  ∧ chromium (snd r) = [SyncPlaywright; Launch; NewPage; Stop]
  ∧ fs (snd r) !! PDF_FILE sample_base = None.
Proof. vm_compute. by split_and!. Qed.

Example main_needs_the_script_directory :
  fst (main sample_markdown sample_browser ["nowhere"] ["build.py"] sample_world)
  = Raise (FileNotFoundError (OUTPUT_DIR ["nowhere"])).
Proof. vm_compute. reflexivity. Qed.

End Runs.

(** ** The theorems at work on the small guide *)

(** C3 on the small guide: the second chapter is missing; the first and the
    third give the two sections and the warning is printed. *)
Lemma missing_unit_is_skipped_witness :
  let dir := CONTENT_DIR sample_base in
  let run := md_to_html sample_markdown dir
      (["chapter-01-ai-landscape.md"] ++ "chapter-02-how-llms-work.md"
       :: ["chapter-03-threat-modeling.md"]) sample_world in
  fs sample_world !! (dir /: "chapter-02-how-llms-work.md") = None
  ∧ fst run = Ok [render_section sample_markdown "# Landscape [ ] read [x] skim";
                  render_section sample_markdown "# Threats"]
  ∧ stdout (snd run) = [PrintWarning "chapter-02-how-llms-work.md"].
Proof.
  intros dir run.
  assert (fs sample_world !! (dir /: "chapter-02-how-llms-work.md") = None) as H
    by (vm_compute; reflexivity).
  split; [exact H|].
  destruct (missing_unit_is_skipped sample_markdown dir
              ["chapter-01-ai-landscape.md"] "chapter-02-how-llms-work.md"
              ["chapter-03-threat-modeling.md"] sample_world H) as (Hrun & _ & _).
  subst run. rewrite Hrun. split; vm_compute; reflexivity.
Defined.

(** C4 on the small guide without its style sheet: [main] raises and no
    browser call is made. *)
Lemma missing_style_sheet_aborts_witness :
  fs unstyled_world !! STYLE_FILE sample_base = None
  ∧ ∃ e w',
      main sample_markdown sample_browser sample_base ["build.py"] unstyled_world
      = (Raise e, w')
      ∧ read_text (STYLE_FILE sample_base) unstyled_world = (Raise e, unstyled_world)
      ∧ chromium w' = chromium unstyled_world
      ∧ fs w' !! HTML_FILE sample_base = fs unstyled_world !! HTML_FILE sample_base
      ∧ fs w' !! PDF_FILE sample_base = fs unstyled_world !! PDF_FILE sample_base.
Proof.
  assert (fs unstyled_world !! STYLE_FILE sample_base = None) as Hnone
    by (vm_compute; reflexivity).
  split; [exact Hnone|].
  assert (∀ css, fs unstyled_world !! STYLE_FILE sample_base ≠ Some (TextFile css))
    as H by (intros css Hcss; rewrite Hnone in Hcss; discriminate Hcss).
  destruct (missing_style_sheet_aborts sample_markdown sample_browser sample_base
              ["build.py"] unstyled_world H)
    as (e & Hread & _ & e' & w' & Hmain & Hcalls & _ & Hhtml & Hpdf & _ & He).
  assert (e' = e) as -> by (apply He; vm_compute; reflexivity).
  exists e, w'. split_and!; assumption.
Defined.

(** C5 on the small guide, with three chapters and one exercise
    configured and two entries in the table of contents: the second
    chapter is missing, and the document is [sample_document], in which the
    two entries and the three sections stand in order. *)
Lemma document_is_concatenation_witness :
  ∃ w',
    build_document_with sample_markdown sample_base
      ["chapter-01-ai-landscape.md"; "chapter-02-how-llms-work.md";
       "chapter-03-threat-modeling.md"]
      ["exercise-01-threat-model-chatbot.md"] sample_toc sample_world
    = (Ok sample_document, w')
    ∧ fst (md_to_html sample_markdown (CONTENT_DIR sample_base)
             ["chapter-01-ai-landscape.md"; "chapter-02-how-llms-work.md";
              "chapter-03-threat-modeling.md"] sample_world)
      = Ok [section_div ("<p># Landscape " +:+ unchecked_box +:+ " read "
                         +:+ checked_box +:+ " skim</p>");
            section_div "<p># Threats</p>"].
Proof.
  assert (fst (build_document_with sample_markdown sample_base
                 ["chapter-01-ai-landscape.md"; "chapter-02-how-llms-work.md";
                  "chapter-03-threat-modeling.md"]
                 ["exercise-01-threat-model-chatbot.md"] sample_toc sample_world)
          = Ok sample_document) as Hfst by (vm_compute; reflexivity).
  destruct (document_is_concatenation sample_markdown sample_base _ _ _ _ _ _
              (run_pair _ _ _ Hfst))
    as (css & _ & Hprimary & _).
  eexists. split.
  - exact (run_pair _ _ _ Hfst).
  - rewrite Hprimary. vm_compute. reflexivity.
Defined.

(** C6 on the small guide: with [--html] the intermediate file holds the
    document, without it the file is gone. *)
Lemma intermediate_artifact_witness :
  (∃ doc,
     fs (snd (main sample_markdown sample_browser sample_base
                ["build.py"; "--html"] sample_world)) !! HTML_FILE sample_base
     = Some (TextFile doc))
  ∧ fs (snd (main sample_markdown sample_browser sample_base
               ["build.py"] sample_world)) !! HTML_FILE sample_base
    = None.
Proof.
  assert (fst (main sample_markdown sample_browser sample_base
                 ["build.py"; "--html"] sample_world) = Ok tt)
    as Hkeep by (vm_compute; reflexivity).
  assert (fst (main sample_markdown sample_browser sample_base
                 ["build.py"] sample_world) = Ok tt)
    as Hdrop by (vm_compute; reflexivity).
  split.
  - destruct (main sample_markdown sample_browser sample_base
                ["build.py"; "--html"] sample_world) as [o w'] eqn:E.
    simpl in Hkeep. subst o.
    destruct (intermediate_artifact sample_markdown sample_browser sample_base
                _ _ _ E)
      as ((w0 & doc & w1 & w2 & _ & _ & _ & _ & _ & Hhtml & _) & _).
    exists doc. apply Hhtml. apply list_elem_of_In. simpl. tauto.
  - destruct (main sample_markdown sample_browser sample_base
                ["build.py"] sample_world) as [o w'] eqn:E.
    simpl in Hdrop. subst o.
    destruct (intermediate_artifact sample_markdown sample_browser sample_base
                _ _ _ E)
      as ((w0 & doc & w1 & w2 & _ & _ & _ & _ & Hhtml & _) & _).
    apply Hhtml. intros Hin. apply list_elem_of_In in Hin. simpl in Hin.
    destruct Hin as [Hin | [ ]]. discriminate Hin.
Defined.

(** The build of the small guide goes through: the PDF is written and, no
    [--html] being given, the intermediate file is gone. *)
Lemma main_goes_through_witness :
  ∃ w' pdf,
    main sample_markdown sample_browser sample_base ["build.py"] sample_world
    = (Ok tt, w')
    ∧ fs w' !! PDF_FILE sample_base = Some (BinaryFile pdf)
    ∧ fs w' !! HTML_FILE sample_base = None.
Proof.
  assert (readable (fs sample_world) (CONTENT_DIR sample_base) CHAPTERS) as H1.
  { repeat (constructor;
      [first [left; vm_compute; reflexivity
             | right; eexists; vm_compute; reflexivity]|]).
    constructor. }
  assert (readable (fs sample_world) (EXERCISES_DIR sample_base) EXERCISES) as H2.
  { repeat (constructor;
      [first [left; vm_compute; reflexivity
             | right; eexists; vm_compute; reflexivity]|]).
    constructor. }
  assert (fs sample_world !! HTML_FILE sample_base = None) as H3
    by (vm_compute; reflexivity).
  assert (fs sample_world !! PDF_FILE sample_base = None) as H4
    by (vm_compute; reflexivity).
  destruct (main_goes_through sample_markdown sample_browser sample_base
              ["build.py"] sample_world "body { margin: 0 }")
    as (w' & Hmain & Hpdf & Hhtml & _).
  - reflexivity.
  - vm_compute. reflexivity.
  - left. vm_compute. reflexivity.
  - vm_compute. reflexivity.
  - exact H1.
  - exact H2.
  - rewrite H3. discriminate.
  - rewrite H4. discriminate.
  - exists w'. eexists. split_and!; [exact Hmain | exact Hpdf | exact Hhtml].
Defined.

(** * More of the script *)

(** ** No token is left *)

Section CheckboxesLeft.
Import Str StrFacts.

(** A pattern without opening bracket and opening angle is found in front
    of the converted text exactly when it is in front of the text. *)
Lemma startswith_convert_plain t s :
  plain t = true →
  startswith (convert_checkboxes s) t = startswith s t.
Proof.
  revert s. induction t as [|a t IH]; intros s Ht; [reflexivity|].
  simpl in Ht. apply andb_prop in Ht as [Ha Ht]. apply andb_prop in Ha as [Ha1 Ha2].
  apply negb_true_iff in Ha1, Ha2.
  destruct (startswith s unchecked_token) eqn:H1.
  { apply startswith_inv in H1 as [r ->]. rewrite convert_checkboxes_unchecked.
    change (unchecked_box +:+ ?x) with (String "<" (drop 1 unchecked_box +:+ x)).
    change (unchecked_token +:+ r) with (String "[" (" ]" +:+ r)).
    rewrite !startswith_cons. by rewrite Ha1, Ha2. }
  destruct (startswith s checked_token) eqn:H2.
  { apply startswith_inv in H2 as [r ->]. rewrite convert_checkboxes_checked.
    change (checked_box +:+ ?x) with (String "<" (drop 1 checked_box +:+ x)).
    change (checked_token +:+ r) with (String "[" ("x]" +:+ r)).
    rewrite !startswith_cons. by rewrite Ha1, Ha2. }
  destruct s as [|c r]; [reflexivity|].
  rewrite convert_checkboxes_other by done.
  rewrite !startswith_cons. by rewrite IH.
Qed.

(** The converted text does not begin with a token. *)
Lemma startswith_convert_token tok s :
  tok = unchecked_token ∨ tok = checked_token →
  startswith (convert_checkboxes s) tok = false.
Proof.
  intros Htok.
  destruct (startswith s unchecked_token) eqn:H1.
  { apply startswith_inv in H1 as [r ->]. rewrite convert_checkboxes_unchecked.
    by destruct Htok as [-> | ->]. }
  destruct (startswith s checked_token) eqn:H2.
  { apply startswith_inv in H2 as [r ->]. rewrite convert_checkboxes_checked.
    by destruct Htok as [-> | ->]. }
  destruct s as [|c r]; [by destruct Htok as [-> | ->]|].
  rewrite convert_checkboxes_other by done.
  destruct Htok as [-> | ->].
  - change unchecked_token with (String "[" " ]") in *.
    rewrite startswith_cons in H1 |- *.
    destruct (Ascii.eqb "[" c); [|done].
    by rewrite (startswith_convert_plain " ]").
  - change checked_token with (String "[" "x]") in *.
    rewrite startswith_cons in H2 |- *.
    destruct (Ascii.eqb "[" c); [|done].
    by rewrite (startswith_convert_plain "x]").
Qed.

Lemma occurs_cons_inv old c s :
  occurs old (String c s) → startswith (String c s) old = true ∨ occurs old s.
Proof.
  intros ([|c' a] & b & H).
  - left. change ("" +:+ old +:+ b) with (old +:+ b) in H. rewrite H.
    apply startswith_app.
  - right. rewrite app_cons in H. injection H as _ ->. by exists a, b.
Qed.

Lemma occurs_nil_inv old : occurs old "" → old = "".
Proof.
  intros ([|c a] & b & H); [|discriminate].
  change ("" +:+ old +:+ b) with (old +:+ b) in H. by destruct old.
Qed.

(** A text that begins with a bracket is not found before the end of a
    text without brackets. *)
Lemma occurs_after_bracket_free tok u v :
  bracket_free u = true →
  occurs (String "[" tok) (u +:+ v) → occurs (String "[" tok) v.
Proof.
  induction u as [|c u IH]; intros Hu H; [done|].
  simpl in Hu. apply andb_prop in Hu as [Hc Hu]. apply negb_true_iff in Hc.
  rewrite app_cons in H. apply occurs_cons_inv in H as [H | H]; [|by apply IH].
  rewrite startswith_cons in H. rewrite Ascii.eqb_sym, Hc in H. discriminate.
Qed.

Lemma convert_checkboxes_no_token tok html :
  tok = unchecked_token ∨ tok = checked_token →
  ¬ occurs tok (convert_checkboxes html).
Proof.
  intros Htok.
  remember (String.length html) as n eqn:Hn. revert html Hn.
  induction n as [n IH] using lt_wf_ind. intros s -> Hocc.
  assert (∃ t, tok = String "[" t) as [t Ht] by (destruct Htok as [-> | ->]; by eexists).
  destruct (startswith s unchecked_token) eqn:H1.
  { apply startswith_inv in H1 as [r ->]. rewrite convert_checkboxes_unchecked in Hocc.
    rewrite Ht in Hocc. apply occurs_after_bracket_free in Hocc; [|reflexivity].
    rewrite <- Ht in Hocc. eapply IH; [|reflexivity|exact Hocc].
    rewrite length_app. simpl. lia. }
  destruct (startswith s checked_token) eqn:H2.
  { apply startswith_inv in H2 as [r ->]. rewrite convert_checkboxes_checked in Hocc.
    rewrite Ht in Hocc. apply occurs_after_bracket_free in Hocc; [|reflexivity].
    rewrite <- Ht in Hocc. eapply IH; [|reflexivity|exact Hocc].
    rewrite length_app. simpl. lia. }
  destruct s as [|c r].
  { apply occurs_nil_inv in Hocc. by destruct Htok as [-> | ->]. }
  pose proof (startswith_convert_token tok (String c r) Htok) as Hfront.
  rewrite convert_checkboxes_other in Hocc, Hfront by done.
  apply occurs_cons_inv in Hocc as [Hocc | Hocc]; [congruence|].
  eapply IH; [|reflexivity|exact Hocc]. simpl. lia.
Qed.

(** X2.  After the two [replace] calls of [md_to_html] no checkbox token is left
    in the text, neither one that was missed nor one that the boxes put
    in would have made; to convert a second time changes nothing. *)
Theorem no_token_is_left (html : string) :
  ¬ occurs unchecked_token (convert_checkboxes html)
  ∧ ¬ occurs checked_token (convert_checkboxes html)
  ∧ convert_checkboxes (convert_checkboxes html) = convert_checkboxes html.
Proof.
  assert (¬ occurs unchecked_token (convert_checkboxes html)) as H1
    by (apply convert_checkboxes_no_token; by left).
  assert (¬ occurs checked_token (convert_checkboxes html)) as H2
    by (apply convert_checkboxes_no_token; by right).
  split_and!; [done..|]. by apply convert_checkboxes_id.
Qed.

End CheckboxesLeft.

(** ** Footprints *)

Section Footprints.

Lemma steps_ret {A} (R : relation World) (a : A) :
  Reflexive R → steps R (ret a).
Proof. intros HR w r w' [= <- <-]. apply HR. Qed.

Lemma steps_bind {A B} (R : relation World) (m : M A) (k : A → M B) :
  Transitive R → steps R m → (∀ a, steps R (k a)) → steps R (bind m k).
Proof.
  intros HR Hm Hk w r w' H. unfold bind in H.
  destruct (m w) as [[a|e] w1] eqn:E.
  - apply (HR _ w1); [by eapply Hm | by eapply Hk].
  - injection H as <- <-. by eapply Hm.
Qed.

(** A computation that hands the world back as it got it. *)
Lemma steps_unchanged {A} (R : relation World) (m : M A) :
  Reflexive R → (∀ w r w', m w = (r, w') → w' = w) → steps R m.
Proof. intros HR Hm w r w' H. rewrite (Hm _ _ _ H). apply HR. Qed.

Lemma steps_with {A B} (R : relation World) (enter : M A) (leave : M unit)
    (body : A → M B) :
  Transitive R → steps R enter → steps R leave → (∀ a, steps R (body a)) →
  steps R (with_ enter leave body).
Proof.
  intros HR He Hl Hb w r w' H. unfold with_ in H.
  destruct (enter w) as [[a|e] w1] eqn:E1.
  - destruct (body a w1) as [[b|e] w2] eqn:E2;
      destruct (leave w2) as [[[]|e'] w3] eqn:E3; injection H as <- <-;
      apply (HR _ w1); try (by eapply He);
      apply (HR _ w2); try (by eapply Hb); by eapply Hl.
  - injection H as <- <-. by eapply He.
Qed.

Lemma same_disk_refl : Reflexive same_disk.
Proof. by intros w. Qed.

Lemma same_disk_trans : Transitive same_disk.
Proof.
  intros w1 w2 w3 (H1 & H2 & H3) (H4 & H5 & H6). unfold same_disk.
  by rewrite H4, H5, H6.
Qed.

Lemma printed_more_refl P : Reflexive (printed_more P).
Proof. intros w. exists []. by rewrite app_nil_r. Qed.

Lemma printed_more_trans P : Transitive (printed_more P).
Proof.
  intros w1 w2 w3 (l1 & H1 & F1) (l2 & H2 & F2). exists (l1 ++ l2).
  rewrite H2, H1, <- app_assoc. split; [done|]. by apply Forall_app.
Qed.

Lemma printed_more_weaken (P Q : printed → Prop) w w' :
  (∀ l, P l → Q l) → printed_more P w w' → printed_more Q w w'.
Proof.
  intros HPQ (ls & H & F). exists ls. split; [done|].
  eapply Forall_impl; [exact F|exact HPQ].
Qed.

Lemma print_same_disk l : steps same_disk (print l).
Proof. by intros w r w' [= <- <-]. Qed.

Lemma print_printed_more (P : printed → Prop) l :
  P l → steps (printed_more P) (print l).
Proof. intros HP w r w' [= <- <-]. exists [l]. split; [done|]. by constructor. Qed.

Lemma path_exists_unchanged p w r w' : path_exists p w = (r, w') → w' = w.
Proof. by intros [= <- <-]. Qed.

Lemma read_text_unchanged p w r w' : read_text p w = (r, w') → w' = w.
Proof.
  unfold read_text. destruct (fs w !! p) as [[| |]|]; by intros [= <- <-].
Qed.

Lemma md_to_html_loop_steps markdown (R : relation World) dir filenames acc :
  Reflexive R → Transitive R →
  (∀ f, steps R (print (PrintWarning f))) →
  steps R (md_to_html_loop markdown dir filenames acc).
Proof.
  intros Hrefl Htrans Hwarn. revert acc.
  induction filenames as [|f rest IH]; intros acc; [by apply steps_ret|].
  simpl. apply steps_bind; [done|..].
  - apply steps_unchanged; [done|]. apply path_exists_unchanged.
  - intros found. destruct found; simpl.
    + apply steps_bind; [done|..].
      * apply steps_unchanged; [done|]. apply read_text_unchanged.
      * intros text. apply IH.
    + apply steps_bind; [done|apply Hwarn|]. intros _. apply IH.
Qed.

Lemma build_document_with_steps markdown BASE_DIR (R : relation World)
    chapters exercises toc :
  Reflexive R → Transitive R →
  (∀ l, is_loading_line l → steps R (print l)) →
  steps R (build_document_with markdown BASE_DIR chapters exercises toc).
Proof.
  intros Hrefl Htrans Hprint. unfold build_document_with, md_to_html.
  apply steps_bind; [done|..].
  { apply steps_unchanged; [done|]. apply read_text_unchanged. }
  intros css. apply steps_bind; [done|..].
  { apply md_to_html_loop_steps; try done. intros f. by apply Hprint. }
  intros s1. apply steps_bind; [done|by apply Hprint|].
  intros _. apply steps_bind; [done|..].
  { apply md_to_html_loop_steps; try done. intros f. by apply Hprint. }
  intros s2. apply steps_bind; [done|by apply Hprint|].
  intros _. by apply steps_ret.
Qed.

(** X6.  [build_document] only reads and prints: whether it returns the document
    or raises, the disk, the log of browser calls and the page are as they
    were, and the output has grown by warnings and by the two lines that
    count the sections, and by no other line. *)
Theorem build_document_only_reads markdown BASE_DIR chapters exercises toc w :
  let w' := snd (build_document_with markdown BASE_DIR chapters exercises toc w) in
  fs w' = fs w
  ∧ chromium w' = chromium w
  ∧ page w' = page w
  ∧ ∃ lines, stdout w' = stdout w ++ lines ∧ Forall is_loading_line lines.
Proof.
  intros w'.
  destruct (build_document_with markdown BASE_DIR chapters exercises toc w)
    as [r w1] eqn:E. subst w'. simpl.
  assert (same_disk w w1) as (H1 & H2 & H3).
  { eapply build_document_with_steps; [apply same_disk_refl | apply same_disk_trans
      | | exact E]. intros l _. apply print_same_disk. }
  split_and!; try done.
  eapply (build_document_with_steps _ _ (printed_more is_loading_line));
    [apply printed_more_refl | apply printed_more_trans | | exact E].
  intros l Hl. by apply print_printed_more.
Qed.

End Footprints.

(** ** More of [md_to_html] *)

Section MdToHtmlMore.
Variable markdown : string → string.

(** X3.  [md_to_html] over two lists, one after the other, is [md_to_html] over
    the first, then over the second, with the sections of the first in
    front; an exception of the first is not followed by the second. *)
Theorem md_to_html_app dir l1 l2 w :
  md_to_html markdown dir (l1 ++ l2) w
  = (first <- md_to_html markdown dir l1 ;;
     second <- md_to_html markdown dir l2 ;;
     ret (first ++ second)) w.
Proof.
  unfold md_to_html at 1. rewrite md_to_html_loop_app.
  unfold bind at 1 2. unfold md_to_html at 1.
  destruct (md_to_html_loop markdown dir l1 [] w) as [[first|e] w1]; [|done].
  apply md_to_html_loop_acc.
Qed.

Lemma sections_and_warnings m dir filenames :
  readable m dir filenames →
  length (sections_of markdown m dir filenames)
  + length (warnings_of m dir filenames)
  = length filenames.
Proof.
  induction 1 as [|f rest [Hf | [text Hf]] _ IH]; [reflexivity|..].
  - rewrite sections_of_cons_missing, warnings_of_cons_missing by done.
    simpl. lia.
  - rewrite (sections_of_cons_text _ _ _ _ _ text) by done.
    rewrite (warnings_of_cons_present _ _ _ _ (TextFile text)) by done.
    simpl. lia.
Qed.

(** X4.  When [md_to_html] returns, every filename of the list is accounted
    for, by its section or by its warning: the sections returned and the
    warnings printed are as many as the filenames, and nothing else was
    printed. *)
Theorem md_to_html_accounts dir filenames w sections w' :
  md_to_html markdown dir filenames w = (Ok sections, w') →
  ∃ warned,
    stdout w' = stdout w ++ (PrintWarning <$> warned)
    ∧ length sections + length warned = length filenames
    ∧ (∀ f, f ∈ warned ↔ f ∈ filenames ∧ fs w !! (dir /: f) = None)
    ∧ fs w' = fs w.
Proof.
  intros H. pose proof (md_to_html_loop_ok _ _ _ _ _ _ _ H) as Hr.
  rewrite md_to_html_readable in H by done. injection H as <- <-.
  exists (filter (λ f, missing (fs w) dir f) filenames). split_and!.
  - reflexivity.
  - pose proof (sections_and_warnings _ _ _ Hr) as Hlen.
    unfold warnings_of in Hlen. by rewrite length_fmap in Hlen.
  - intros f. rewrite list_elem_of_filter. unfold missing.
    destruct (fs w !! (dir /: f)); simpl; intuition congruence.
  - reflexivity.
Qed.

(** X5.  The guard of the loop asks whether the path exists, not whether a file
    is there.  A configured name that is a directory, or a file that is no
    UTF-8 text, is not skipped: [md_to_html] raises what [read_text] raises
    on it, at the first such name of the list, when it has printed the
    warnings for the missing files before it; the sections made so far
    are lost and the names after it are not looked at. *)
Theorem md_to_html_stops_at_non_text dir pre f post w n :
  readable (fs w) dir pre →
  fs w !! (dir /: f) = Some n →
  (∀ text, n ≠ TextFile text) →
  ∃ e,
    read_text (dir /: f) w = (Raise e, w)
    ∧ (e = IsADirectoryError (dir /: f) ∨ e = UnicodeDecodeError (dir /: f))
    ∧ md_to_html markdown dir (pre ++ f :: post) w
      = (Raise e, put_lines (warnings_of (fs w) dir pre) w).
Proof.
  intros Hpre Hf Hn.
  assert (∃ e, read_text (dir /: f) w = (Raise e, w)
            ∧ (e = IsADirectoryError (dir /: f) ∨ e = UnicodeDecodeError (dir /: f))
            ∧ ∀ acc v, fs v = fs w →
                md_to_html_loop markdown dir (f :: post) acc v = (Raise e, v))
    as (e & Hread & He & Hloop).
  { unfold read_text. rewrite Hf. destruct n as [text|data|].
    - by destruct (Hn text).
    - eexists. split_and!; [done|by right|]. intros acc v Hv.
      apply (md_to_html_loop_binary _ _ _ _ _ _ data). by rewrite Hv.
    - eexists. split_and!; [done|by left|]. intros acc v Hv.
      apply md_to_html_loop_directory. by rewrite Hv. }
  exists e. split_and!; [done..|].
  unfold md_to_html. rewrite md_to_html_loop_app. unfold bind.
  rewrite md_to_html_loop_readable by done. by rewrite Hloop.
Qed.

End MdToHtmlMore.

(** ** More of [render_pdf] and [main] *)

Section RenderingMore.
Variable markdown : string → string.
Variable browser : Browser.
Variable BASE_DIR : Path.

Local Abbreviation render_pdf := (render_pdf browser).
Local Abbreviation main := (main markdown browser BASE_DIR).
Local Abbreviation build_document := (build_document markdown BASE_DIR).
Local Abbreviation STYLE_FILE := (STYLE_FILE BASE_DIR).
Local Abbreviation OUTPUT_DIR := (OUTPUT_DIR BASE_DIR).
Local Abbreviation HTML_FILE := (HTML_FILE BASE_DIR).
Local Abbreviation PDF_FILE := (PDF_FILE BASE_DIR).

Lemma page_goto_raise hp w e w' :
  page_goto browser hp w = (Raise e, w') → e = PlaywrightError Goto ∧ w' = w.
Proof.
  unfold page_goto. destruct (fs w !! hp) as [[html| |]|]; try by intros [= <- <-].
  destruct (call_cases browser Goto w) as [-> | ->]; [by intros [= <- <-]|done].
Qed.

Lemma page_pdf_raise pp options w e w' :
  page_pdf browser pp options w = (Raise e, w') →
  e ≠ PlaywrightError BrowserClose ∧ w' = w.
Proof.
  unfold page_pdf. destruct (call_fails browser Pdf w); [by intros [= <- <-]|].
  destruct (write_node pp _ w) as [[[]|e0] w0] eqn:E; [done|].
  intros [= <- <-]. split; [by eapply write_node_raises|].
  destruct (write_node_cases pp (BinaryFile (print_to_pdf browser options (page w))) w)
    as [[e1 He] | He]; rewrite He in E; [by injection E as _ <- | discriminate].
Qed.

(** The block of [render_pdf] when it raises: the disk is as it was, unless
    it is [browser.close()] that failed, after the PDF was written. *)
Lemma render_block_raise hp pp w e w' :
  (call browser Launch ;;
   call browser NewPage ;;
   page_goto browser hp ;;
   call browser WaitForLoadState ;;
   page_pdf browser pp PDF_OPTIONS ;;
   call browser BrowserClose) w = (Raise e, w') →
  stdout w' = stdout w
  ∧ ((e ≠ PlaywrightError BrowserClose ∧ fs w' = fs w)
     ∨ (e = PlaywrightError BrowserClose
        ∧ ∃ html, fs w !! hp = Some (TextFile html)
            ∧ fs w' = <[pp := BinaryFile (print_to_pdf browser PDF_OPTIONS html)]> (fs w))).
Proof.
  unfold bind.
  destruct (call_cases browser Launch w) as [-> | ->].
  { intros [= <- <-]. split; [done|]. by left. }
  destruct (call_cases browser NewPage (log_call Launch w)) as [-> | ->].
  { intros [= <- <-]. split; [done|]. by left. }
  destruct (page_goto_cases browser hp (log_call NewPage (log_call Launch w)))
    as [[e0 He0] | (html & Hhtml & ->)].
  { rewrite He0. intros [= <- <-]. apply page_goto_raise in He0 as [-> _].
    split; [done|]. by left. }
  match goal with |- context [call browser WaitForLoadState ?w0] =>
    destruct (call_cases browser WaitForLoadState w0) as [-> | ->] end.
  { intros [= <- <-]. split; [done|]. by left. }
  match goal with |- context [page_pdf browser pp PDF_OPTIONS ?w0] =>
    destruct (page_pdf_cases browser pp PDF_OPTIONS w0) as [[e0 He0] | ->] end.
  { rewrite He0. intros [= <- <-]. apply page_pdf_raise in He0 as [He0 _].
    split; [done|]. by left. }
  match goal with |- context [call browser BrowserClose ?w0] =>
    destruct (call_cases browser BrowserClose w0) as [-> | ->] end.
  { intros [= <- <-]. split; [done|]. right. split; [done|]. by exists html. }
  discriminate.
Qed.

(** [render_pdf] when it raises. *)
Lemma render_pdf_raise html hp pp w e w' :
  render_pdf html hp pp w = (Raise e, w') →
  let w1 := set_fs (<[hp := TextFile html]>) w in
  stdout w' = stdout w
  ∧ ((w' = w ∧ ∀ c, e ≠ PlaywrightError c)
     ∨ (e = PlaywrightError SyncPlaywright ∧ w' = w1)
     ∨ (e ≠ PlaywrightError BrowserClose ∧ fs w' = fs w1)
     ∨ (e = PlaywrightError BrowserClose
        ∧ fs w' = <[pp := BinaryFile (print_to_pdf browser PDF_OPTIONS html)]> (fs w1))).
Proof.
  intros H w1. unfold Script.render_pdf, bind at 1, write_text in H.
  destruct (write_node hp (TextFile html) w) as [[[]|e0] w0] eqn:Ew.
  2:{ injection H as <- <-.
      assert (w0 = w) as ->.
      { destruct (write_node_cases hp (TextFile html) w) as [[e1 He] | He];
          rewrite He in Ew; [by injection Ew as _ <- | discriminate]. }
      split; [done|]. left. split; [done|]. by eapply write_node_raises. }
  assert (w0 = w1) as ->.
  { destruct (write_node_cases hp (TextFile html) w) as [[e1 He] | He];
      rewrite He in Ew; [discriminate | by injection Ew as <-]. }
  unfold bind at 1, with_ in H.
  destruct (call_cases browser SyncPlaywright w1) as [Hs | Hs]; rewrite Hs in H.
  { injection H as <- <-. split; [done|]. right. by left. }
  cbv beta in H.
  match type of H with context [bind (call browser Launch) ?k ?w0] =>
    destruct (bind (call browser Launch) k w0) as [r0 w3] eqn:E end.
  unfold playwright_stop in H. destruct r0 as [[]|e0].
  - apply render_block in E as (mid & _ & _ & _ & _ & Hok).
    destruct (Hok eq_refl) as (_ & html0 & _ & Hfs).
    unfold bind, stat_size, print in H. simpl fs in H.
    by rewrite Hfs, lookup_insert_eq in H.
  - injection H as <- <-.
    apply render_block_raise in E as (Hout & [[He Hfs] | (-> & html0 & Hhtml & Hfs)]).
    + split; [done|]. right. right. left. by split.
    + split; [done|]. right. right. right. split; [done|].
      simpl in Hhtml. rewrite lookup_insert_eq in Hhtml. by injection Hhtml as ->.
Qed.

(** X7.  The final artifact is written by [page.pdf] and by nothing else.  When
    [render_pdf] raises, the file at the PDF path is what it was before,
    a PDF of an earlier build or nothing, with one exception: when it is
    [browser.close()] that failed, the new PDF is there, complete, and
    [render_pdf] raises all the same. *)
Theorem final_artifact_only_by_print html hp pp w e w' :
  render_pdf html hp pp w = (Raise e, w') →
  hp ≠ pp →
  (e ≠ PlaywrightError BrowserClose → fs w' !! pp = fs w !! pp)
  ∧ (e = PlaywrightError BrowserClose →
       fs w' !! pp = Some (BinaryFile (print_to_pdf browser PDF_OPTIONS html))
       ∧ fs w' !! hp = Some (TextFile html)).
Proof.
  intros H Hne.
  destruct (render_pdf_raise _ _ _ _ _ _ H)
    as (_ & [[-> He] | [[-> ->] | [[He Hfs] | [-> Hfs]]]]).
  - split; [done|]. intros ->. by destruct (He BrowserClose).
  - split; [|done]. intros _. simpl. by rewrite lookup_insert_ne.
  - split; [|done]. intros _. rewrite Hfs. simpl. by rewrite lookup_insert_ne.
  - split; [done|]. intros _. rewrite Hfs. split.
    + apply lookup_insert_eq.
    + rewrite lookup_insert_ne by done. simpl. apply lookup_insert_eq.
Qed.

(** X8.  [main] has no [finally]: when [render_pdf] raises, [main] raises the
    same exception at once.  Nothing is printed after the lines of
    [build_document], and the intermediate file is not taken away: after a
    failure of the browser it is on disk with the assembled document in
    it, whether [--html] was given or not. *)
Theorem failed_rendering_skips_cleanup argv w w0 doc w1 e w2 :
  mkdir_exist_ok OUTPUT_DIR w = (Ok tt, w0) →
  build_document (put_line PrintBuilding w0) = (Ok doc, w1) →
  render_pdf doc HTML_FILE PDF_FILE w1 = (Raise e, w2) →
  main argv w = (Raise e, w2)
  ∧ stdout w2 = stdout w1
  ∧ ((∃ c, e = PlaywrightError c) → fs w2 !! HTML_FILE = Some (TextFile doc)).
Proof.
  intros Hmk Hb Hr. split_and!.
  - unfold Script.main, bind at 1. rewrite Hmk.
    unfold bind at 1, print. unfold bind at 1. rewrite Hb.
    unfold bind at 1. by rewrite Hr.
  - by destruct (render_pdf_raise _ _ _ _ _ _ Hr) as [? _].
  - intros [c ->].
    destruct (render_pdf_raise _ _ _ _ _ _ Hr)
      as (_ & [[_ He] | [[_ ->] | [[_ Hfs] | [_ Hfs]]]]).
    + by destruct (He c).
    + simpl. apply lookup_insert_eq.
    + rewrite Hfs. simpl. apply lookup_insert_eq.
    + rewrite Hfs, lookup_insert_ne by (symmetry; apply html_not_pdf).
      simpl. apply lookup_insert_eq.
Qed.

(** X9.  [mkdir(exist_ok=True)] makes the last component only and puts up with
    a directory only.  When the output path is taken by a file, or when it
    is missing and the directory of the script is not there, [main] raises
    before it has printed, read or written anything. *)
Theorem output_directory_cannot_be_made argv w :
  (∃ n, fs w !! OUTPUT_DIR = Some n ∧ n ≠ Directory)
  ∨ (fs w !! OUTPUT_DIR = None ∧ is_dir (fs w) BASE_DIR = false) →
  ∃ e,
    main argv w = (Raise e, w)
    ∧ (e = FileExistsError OUTPUT_DIR
       ∨ e = FileNotFoundError OUTPUT_DIR
       ∨ e = NotADirectoryError OUTPUT_DIR).
Proof.
  intros H. unfold Script.main, bind at 1, mkdir_exist_ok, no_room.
  destruct H as [(n & Hn & Hdir) | [Hn Hbase]]; rewrite Hn.
  - exists (FileExistsError OUTPUT_DIR). destruct n; [| |done]; split; auto.
  - unfold Script.OUTPUT_DIR at 1 2 3. rewrite parent_joinpath by done.
    rewrite Hbase.
    destruct (fs w !! BASE_DIR); eexists; split; eauto.
Qed.

(** *** The last line *)

Lemma quiet {A} (P : printed → Prop) (m : M A) :
  (∀ w r w', m w = (r, w') → stdout w' = stdout w) → steps (printed_more P) m.
Proof.
  intros Hm w r w' H. exists []. rewrite app_nil_r. split; [by eapply Hm|constructor].
Qed.

Lemma call_quiet P c : steps (printed_more P) (call browser c).
Proof.
  apply quiet. intros w r w'.
  destruct (call_cases browser c w) as [-> | ->]; by intros [= <- <-].
Qed.

Lemma write_node_quiet P p n : steps (printed_more P) (write_node p n).
Proof.
  apply quiet. intros w r w'.
  destruct (write_node_cases p n w) as [[e ->] | ->]; by intros [= <- <-].
Qed.

Lemma page_goto_quiet P hp : steps (printed_more P) (page_goto browser hp).
Proof.
  apply quiet. intros w r w'.
  destruct (page_goto_cases browser hp w) as [[e ->] | (html & _ & ->)];
    by intros [= <- <-].
Qed.

Lemma page_pdf_quiet P pp options : steps (printed_more P) (page_pdf browser pp options).
Proof.
  apply quiet. intros w r w'.
  destruct (page_pdf_cases browser pp options w) as [[e ->] | ->]; by intros [= <- <-].
Qed.

Lemma stat_size_quiet P p : steps (printed_more P) (stat_size p).
Proof.
  apply quiet. intros w r w'. unfold stat_size.
  destruct (fs w !! p) as [[| |]|]; by intros [= <- <-].
Qed.

Lemma unlink_missing_ok_quiet P p : steps (printed_more P) (unlink_missing_ok p).
Proof.
  apply quiet. intros w r w'. unfold unlink_missing_ok.
  destruct (fs w !! p) as [[| |]|]; by intros [= <- <-].
Qed.

Lemma mkdir_exist_ok_quiet P p : steps (printed_more P) (mkdir_exist_ok p).
Proof.
  apply quiet. intros w r w' H. by apply mkdir_exist_ok_world in H as (_ & _ & ? & _).
Qed.

Lemma render_pdf_prints (P : printed → Prop) html hp pp :
  (∀ size, P (PrintPdfSaved pp size)) →
  steps (printed_more P) (render_pdf html hp pp).
Proof.
  intros HP. pose proof (printed_more_trans P) as Ht.
  unfold Script.render_pdf.
  apply steps_bind; [done|apply write_node_quiet|]. intros _.
  apply steps_bind; [done|..].
  { apply steps_with; [done|apply call_quiet|..].
    - apply quiet. by intros w r w' [= <- <-].
    - intros _. repeat (apply steps_bind; [done|..]; [|intros _]);
        try apply call_quiet; [apply page_goto_quiet | apply page_pdf_quiet]. }
  intros _. apply steps_bind; [done|apply stat_size_quiet|]. intros size.
  by apply print_printed_more.
Qed.

Lemma reports_done_print : reports_done (print PrintDone).
Proof. intros w r w' [= <- <-]. exists []. by split. Qed.

Lemma reports_done_bind {A} (m : M A) (k : A → M unit) :
  steps (printed_more (λ l, l ≠ PrintDone)) m →
  (∀ a, reports_done (k a)) →
  reports_done (bind m k).
Proof.
  intros Hm Hk w r w' H. unfold bind in H.
  destruct (m w) as [[a|e] w1] eqn:E.
  - destruct (Hm _ _ _ E) as (l1 & H1 & F1).
    destruct (Hk a _ _ _ H) as (l2 & F2 & H2).
    exists (l1 ++ l2). split; [by apply Forall_app|].
    by rewrite H2, H1, <- !app_assoc.
  - injection H as <- <-. destruct (Hm _ _ _ E) as (l1 & H1 & F1).
    exists l1. split; [done|]. by rewrite app_nil_r.
Qed.

(** X10.  [Done.] is the last thing [main] does.  Whatever the disk and the
    browser, [main] prints it once, as its last line, when it returns, and
    does not print it at all when it raises. *)
Theorem done_is_the_last_line argv w :
  let r := main argv w in
  ∃ lines,
    Forall (λ l, l ≠ PrintDone) lines
    ∧ stdout (snd r)
      = stdout w ++ lines
        ++ match fst r with Ok _ => [PrintDone] | Raise _ => [] end.
Proof.
  intros r. destruct r as [o w'] eqn:E. subst r. simpl.
  revert w o w' E. change (reports_done (main argv)).
  pose proof (printed_more_refl (λ l, l ≠ PrintDone)) as Hrefl.
  pose proof (printed_more_trans (λ l, l ≠ PrintDone)) as Htrans.
  unfold Script.main.
  apply reports_done_bind; [apply mkdir_exist_ok_quiet|]. intros _.
  apply reports_done_bind; [by apply print_printed_more|]. intros _.
  apply reports_done_bind.
  { apply build_document_with_steps; [done..|].
    intros l Hl. apply print_printed_more. by intros ->. }
  intros html.
  apply reports_done_bind; [by apply render_pdf_prints|]. intros _.
  apply reports_done_bind; [|intros _; apply reports_done_print].
  destruct (negb _); [apply unlink_missing_ok_quiet|by apply steps_ret].
Qed.

(** *** Building twice *)

Lemma built_disk_other m doc pdf b p :
  p ≠ OUTPUT_DIR → p ≠ HTML_FILE → p ≠ PDF_FILE →
  built_disk BASE_DIR m doc pdf b !! p = m !! p.
Proof.
  intros H1 H2 H3. unfold built_disk. destruct b.
  - by rewrite !lookup_insert_ne.
  - rewrite lookup_delete_ne by done. by rewrite !lookup_insert_ne.
Qed.

Lemma built_disk_output m doc pdf b :
  built_disk BASE_DIR m doc pdf b !! OUTPUT_DIR = Some Directory.
Proof.
  unfold built_disk. destruct b.
  - rewrite !lookup_insert_ne by (apply pdf_not_output || apply html_not_output).
    apply lookup_insert_eq.
  - rewrite lookup_delete_ne by apply html_not_output.
    rewrite !lookup_insert_ne by (apply pdf_not_output || apply html_not_output).
    apply lookup_insert_eq.
Qed.

Lemma built_disk_pdf m doc pdf b :
  built_disk BASE_DIR m doc pdf b !! PDF_FILE = Some (BinaryFile pdf).
Proof.
  unfold built_disk. destruct b.
  - apply lookup_insert_eq.
  - rewrite lookup_delete_ne by apply html_not_pdf. apply lookup_insert_eq.
Qed.

Lemma built_disk_html m doc pdf b :
  built_disk BASE_DIR m doc pdf b !! HTML_FILE
  = if b then Some (TextFile doc) else None.
Proof.
  unfold built_disk. destruct b.
  - rewrite lookup_insert_ne by (symmetry; apply html_not_pdf).
    apply lookup_insert_eq.
  - apply lookup_delete_eq.
Qed.

(** Building again on the disk of a build changes the PDF at most: every
    other path is as the first build left it. *)
Lemma built_disk_again m doc pdf pdf' b p :
  p ≠ PDF_FILE →
  built_disk BASE_DIR (built_disk BASE_DIR m doc pdf b) doc pdf' b !! p
  = built_disk BASE_DIR m doc pdf b !! p.
Proof.
  intros H1.
  destruct (decide (p = HTML_FILE)) as [-> | H2]; [by rewrite !built_disk_html|].
  destruct (decide (p = OUTPUT_DIR)) as [-> | H3]; [by rewrite !built_disk_output|].
  by rewrite (built_disk_other (built_disk BASE_DIR m doc pdf b)).
Qed.

Lemma deep_not_output (dir f : string) :
  is_file_name dir = true → is_file_name f = true →
  BASE_DIR /: dir /: f ≠ OUTPUT_DIR.
Proof.
  intros Hdir Hf H. apply (f_equal length) in H.
  unfold Script.OUTPUT_DIR in H. rewrite !joinpath_length in H by done. lia.
Qed.

Lemma deep_not_made (dir f : string) :
  is_file_name dir = true → is_file_name f = true → dir ≠ "export" →
  BASE_DIR /: dir /: f ≠ HTML_FILE ∧ BASE_DIR /: dir /: f ≠ PDF_FILE.
Proof.
  intros Hdir Hf Hne.
  split; intros H; apply joinpath_inj in H as [H _]; try done;
    by apply joinpath_inj in H as [_ ?].
Qed.

Lemma base_not_made : BASE_DIR ≠ OUTPUT_DIR ∧ BASE_DIR ≠ HTML_FILE ∧ BASE_DIR ≠ PDF_FILE.
Proof.
  split_and!; intros H; apply (f_equal length) in H;
    unfold Script.HTML_FILE, Script.PDF_FILE, Script.OUTPUT_DIR in H;
    rewrite !joinpath_length in H by done; lia.
Qed.

Lemma style_not_made : STYLE_FILE ≠ HTML_FILE ∧ STYLE_FILE ≠ PDF_FILE.
Proof.
  split; intros H; apply (f_equal length) in H;
    unfold Script.STYLE_FILE, Script.HTML_FILE, Script.PDF_FILE, Script.OUTPUT_DIR in H;
    rewrite !joinpath_length in H by done; lia.
Qed.

Lemma is_dir_same (m m' : gmap Path node) p :
  m !! p = m' !! p → is_dir m p = is_dir m' p.
Proof. intros H. unfold is_dir. destruct p; [done|]. by rewrite H. Qed.

(** A build that goes through, with the disk it leaves. *)
Lemma main_disk argv w css :
  (∀ c v, call_fails browser c v = false) →
  is_dir (fs w) BASE_DIR = true →
  fs w !! OUTPUT_DIR = None ∨ fs w !! OUTPUT_DIR = Some Directory →
  fs w !! STYLE_FILE = Some (TextFile css) →
  readable (fs w) (CONTENT_DIR BASE_DIR) CHAPTERS →
  readable (fs w) (EXERCISES_DIR BASE_DIR) EXERCISES →
  fs w !! HTML_FILE ≠ Some Directory →
  fs w !! PDF_FILE ≠ Some Directory →
  let doc :=
    document css COVER (build_toc TOC_ENTRIES)
      (Str.join (sections_of markdown (fs w) (CONTENT_DIR BASE_DIR) CHAPTERS
                 ++ sections_of markdown (fs w) (EXERCISES_DIR BASE_DIR) EXERCISES)) in
  let pdf := print_to_pdf browser PDF_OPTIONS doc in
  ∃ w',
    main argv w = (Ok tt, w')
    ∧ fs w' = built_disk BASE_DIR (fs w) doc pdf (bool_decide ("--html" ∈ argv)).
Proof.
  intros Hbrowser Hbase Hout Hcss Hr1 Hr2 Hhtml Hpdf doc pdf.
  assert (∃ w0, mkdir_exist_ok OUTPUT_DIR w = (Ok tt, w0)
            ∧ fs w0 = <[OUTPUT_DIR := Directory]> (fs w)) as (w0 & Hmk & Hfs0).
  { unfold mkdir_exist_ok, no_room. destruct Hout as [Hnone | Hsome].
    - rewrite Hnone. unfold Script.OUTPUT_DIR at 1 2.
      rewrite parent_joinpath by done. rewrite Hbase.
      by eexists.
    - rewrite Hsome. exists w. split; [done|]. by rewrite insert_id. }
  assert (∀ p, p ≠ OUTPUT_DIR → fs w0 !! p = fs w !! p) as Hother.
  { intros p Hp. by rewrite Hfs0, lookup_insert_ne. }
  set (w1 := put_line PrintBuilding w0).
  assert (build_document w1
          = (Ok doc, put_lines (loading_lines markdown BASE_DIR (fs w1)
                                  CHAPTERS EXERCISES) w1)) as Hbuild.
  { unfold Script.build_document.
    rewrite (build_document_with_readable _ _ _ _ _ _ css).
    - subst doc. simpl fs.
      rewrite (sections_of_ext _ (fs w0) (fs w) (CONTENT_DIR BASE_DIR))
        by (intros f Hf; apply Hother, deep_not_output;
            [done | by apply chapter_is_file_name]).
      by rewrite (sections_of_ext _ (fs w0) (fs w) (EXERCISES_DIR BASE_DIR))
        by (intros f Hf; apply Hother, deep_not_output;
            [done | by apply exercise_is_file_name]).
    - simpl. rewrite Hother by apply style_not_output. done.
    - apply (readable_ext (fs w)); [|done]. intros f Hf. symmetry.
      apply Hother, deep_not_output; [done | by apply chapter_is_file_name].
    - apply (readable_ext (fs w)); [|done]. intros f Hf. symmetry.
      apply Hother, deep_not_output; [done | by apply exercise_is_file_name]. }
  set (w2 := put_lines _ w1) in Hbuild.
  assert (fs w2 = fs w0) as Hfs2 by reflexivity.
  pose proof (render_pdf_goes_through browser doc OUTPUT_DIR
                "AI-Security-Architecture-Guide.html"
                "AI-Security-Architecture-Guide.pdf" w2 Hbrowser) as Hrender.
  cbv zeta in Hrender. fold pdf in Hrender.
  change (OUTPUT_DIR /: "AI-Security-Architecture-Guide.html") with HTML_FILE in Hrender.
  change (OUTPUT_DIR /: "AI-Security-Architecture-Guide.pdf") with PDF_FILE in Hrender.
  rewrite Hfs2 in Hrender.
  specialize (Hrender eq_refl eq_refl ltac:(done)
                ltac:(rewrite Hfs0; apply lookup_insert_eq)).
  rewrite !Hother in Hrender by (apply html_not_output || apply pdf_not_output).
  specialize (Hrender Hhtml Hpdf).
  unfold Script.main, bind at 1. rewrite Hmk.
  unfold bind at 1, print. unfold bind at 1. fold w1. rewrite Hbuild.
  unfold bind at 1. rewrite Hrender. unfold built_disk. rewrite <- Hfs0.
  destruct (bool_decide ("--html" ∈ argv)); simpl negb; cbv iota.
  - eexists. unfold bind, ret, print. split; reflexivity.
  - unfold bind, unlink_missing_ok, print. simpl fs.
    rewrite lookup_insert_ne by (symmetry; apply html_not_pdf).
    rewrite lookup_insert_eq. eexists. split; reflexivity.
Qed.

End RenderingMore.

(** *** Building twice, the browser printing as it likes *)

Section Rebuilding.
Variable markdown : string → string.
Variable BASE_DIR : Path.

(** Chromium as the first build and as the second build find it: what it
    prints the second time need not be what it printed the first time. *)
Variable first_browser second_browser : Browser.

Local Abbreviation STYLE_FILE := (STYLE_FILE BASE_DIR).
Local Abbreviation OUTPUT_DIR := (OUTPUT_DIR BASE_DIR).
Local Abbreviation HTML_FILE := (HTML_FILE BASE_DIR).
Local Abbreviation PDF_FILE := (PDF_FILE BASE_DIR).

(** X11.  The build can be run again.  When a build goes through, a second
    build on what the first has left goes through as well, whatever bytes
    its browser prints.  It assembles the same document; its PDF is the
    print of that document by the second browser; every other path is as
    the first build left it, the intermediate file included. *)
Theorem rebuilding_repeats_the_build argv w css :
  (∀ c v, call_fails first_browser c v = false) →
  (∀ c v, call_fails second_browser c v = false) →
  is_dir (fs w) BASE_DIR = true →
  fs w !! OUTPUT_DIR = None ∨ fs w !! OUTPUT_DIR = Some Directory →
  fs w !! STYLE_FILE = Some (TextFile css) →
  readable (fs w) (CONTENT_DIR BASE_DIR) CHAPTERS →
  readable (fs w) (EXERCISES_DIR BASE_DIR) EXERCISES →
  fs w !! HTML_FILE ≠ Some Directory →
  fs w !! PDF_FILE ≠ Some Directory →
  let doc :=
    document css COVER (build_toc TOC_ENTRIES)
      (Str.join (sections_of markdown (fs w) (CONTENT_DIR BASE_DIR) CHAPTERS
                 ++ sections_of markdown (fs w) (EXERCISES_DIR BASE_DIR) EXERCISES)) in
  ∃ w1 w2,
    main markdown first_browser BASE_DIR argv w = (Ok tt, w1)
    ∧ main markdown second_browser BASE_DIR argv w1 = (Ok tt, w2)
    ∧ fs w1 !! PDF_FILE
      = Some (BinaryFile (print_to_pdf first_browser PDF_OPTIONS doc))
    ∧ fs w2 !! PDF_FILE
      = Some (BinaryFile (print_to_pdf second_browser PDF_OPTIONS doc))
    ∧ (∀ p, p ≠ PDF_FILE → fs w2 !! p = fs w1 !! p).
Proof.
  intros Hfirst Hsecond Hbase Hout Hcss Hr1 Hr2 Hhtml Hpdf doc.
  destruct (main_disk markdown first_browser BASE_DIR argv w css
              Hfirst Hbase Hout Hcss Hr1 Hr2 Hhtml Hpdf)
    as (w1 & Hmain1 & Hfs1).
  fold doc in Hfs1.
  set (b := bool_decide ("--html" ∈ argv)) in *.
  destruct (base_not_made BASE_DIR) as (Hb1 & Hb2 & Hb3).
  destruct (style_not_made BASE_DIR) as (Hs1 & Hs2).
  assert (∀ (dir f : string),
            is_file_name dir = true → is_file_name f = true → dir ≠ "export" →
            fs w1 !! (BASE_DIR /: dir /: f) = fs w !! (BASE_DIR /: dir /: f)) as Hdeep.
  { intros dir f Hd Hf Hdir. rewrite Hfs1.
    destruct (deep_not_made BASE_DIR dir f Hd Hf Hdir) as [? ?].
    apply built_disk_other; [by apply deep_not_output|done..]. }
  assert (∀ f, f ∈ CHAPTERS →
            fs w1 !! (CONTENT_DIR BASE_DIR /: f) = fs w !! (CONTENT_DIR BASE_DIR /: f))
    as Hchapters.
  { intros f Hf. apply (Hdeep "content"); [done| |done].
    by apply chapter_is_file_name. }
  assert (∀ f, f ∈ EXERCISES →
            fs w1 !! (EXERCISES_DIR BASE_DIR /: f)
            = fs w !! (EXERCISES_DIR BASE_DIR /: f))
    as Hexercises.
  { intros f Hf. apply (Hdeep "exercises"); [done| |done].
    by apply exercise_is_file_name. }
  destruct (main_disk markdown second_browser BASE_DIR argv w1 css)
    as (w2 & Hmain2 & Hfs2); try done.
  - rewrite (is_dir_same (fs w1) (fs w)); [done|].
    by rewrite Hfs1, built_disk_other.
  - right. rewrite Hfs1. apply built_disk_output.
  - rewrite Hfs1, built_disk_other by (done || apply style_not_output). done.
  - apply (readable_ext (fs w)); [|done]. intros f Hf. symmetry. by apply Hchapters.
  - apply (readable_ext (fs w)); [|done]. intros f Hf. symmetry. by apply Hexercises.
  - rewrite Hfs1, built_disk_html. by destruct b.
  - by rewrite Hfs1, built_disk_pdf.
  - rewrite (sections_of_ext _ (fs w1) (fs w) (CONTENT_DIR BASE_DIR)) in Hfs2
      by done.
    rewrite (sections_of_ext _ (fs w1) (fs w) (EXERCISES_DIR BASE_DIR)) in Hfs2
      by done.
    fold doc in Hfs2.
    exists w1, w2. split_and!; [done|done|..].
    + by rewrite Hfs1, built_disk_pdf.
    + by rewrite Hfs2, built_disk_pdf.
    + intros p Hp. rewrite Hfs2, Hfs1. by apply built_disk_again.
Qed.

End Rebuilding.

(** ** More of the script at work on the small guide *)

(** Of the thirteen chapters two are there: two sections and eleven
    warnings. *)
Lemma md_to_html_accounts_witness :
  ∃ warned,
    stdout (snd (md_to_html sample_markdown (CONTENT_DIR sample_base) CHAPTERS
                   sample_world))
    = PrintWarning <$> warned
    ∧ 2 + length warned = 13.
Proof.
  assert (fst (md_to_html sample_markdown (CONTENT_DIR sample_base) CHAPTERS
                 sample_world)
          = Ok (sections_of sample_markdown (fs sample_world)
                  (CONTENT_DIR sample_base) CHAPTERS)) as Hfst
    by (vm_compute; reflexivity).
  destruct (md_to_html_accounts sample_markdown _ _ _ _ _ (run_pair _ _ _ Hfst))
    as (warned & Hout & Hlen & _).
  exists warned. split; [exact Hout | exact Hlen].
Defined.

(** A directory where the second chapter should be: [md_to_html] raises
    what [read_text] raises on it. *)
Lemma md_to_html_stops_at_non_text_witness :
  let dir := CONTENT_DIR sample_base in
  ∃ e,
    read_text (dir /: "chapter-02-how-llms-work.md") cluttered_world
    = (Raise e, cluttered_world)
    ∧ md_to_html sample_markdown dir
        (["chapter-01-ai-landscape.md"] ++ "chapter-02-how-llms-work.md"
         :: ["chapter-03-threat-modeling.md"]) cluttered_world
      = (Raise e, put_lines [] cluttered_world).
Proof.
  intros dir.
  destruct (md_to_html_stops_at_non_text sample_markdown dir
              ["chapter-01-ai-landscape.md"] "chapter-02-how-llms-work.md"
              ["chapter-03-threat-modeling.md"] cluttered_world Directory)
    as (e & Hread & _ & Hrun).
  - constructor; [right; eexists; vm_compute; reflexivity | constructor].
  - vm_compute. reflexivity.
  - discriminate.
  - exists e. split; [exact Hread | exact Hrun].
Defined.

(** Navigation fails: the PDF path is as empty as it was. *)
Lemma final_artifact_only_by_print_witness :
  fst (render_pdf (failing_browser Goto) "<html></html>"
         (HTML_FILE sample_base) (PDF_FILE sample_base) exported_world)
  = Raise (PlaywrightError Goto)
  ∧ fs (snd (render_pdf (failing_browser Goto) "<html></html>"
               (HTML_FILE sample_base) (PDF_FILE sample_base) exported_world))
      !! PDF_FILE sample_base
    = fs exported_world !! PDF_FILE sample_base.
Proof.
  assert (fst (render_pdf (failing_browser Goto) "<html></html>"
                 (HTML_FILE sample_base) (PDF_FILE sample_base) exported_world)
          = Raise (PlaywrightError Goto)) as Hfst by (vm_compute; reflexivity).
  split; [exact Hfst|].
  destruct (final_artifact_only_by_print (failing_browser Goto) _ _ _ _ _ _
              (run_pair _ _ _ Hfst) (html_not_pdf sample_base)) as [Hkept _].
  apply Hkept. discriminate.
Defined.

Section FailedRendering.

Local Abbreviation made :=
  (mkdir_exist_ok (OUTPUT_DIR sample_base) sample_world).
Local Abbreviation built :=
  (build_document sample_markdown sample_base (put_line PrintBuilding (snd made))).
Local Abbreviation doc :=
  (match fst built with Ok doc => doc | Raise _ => "" end).
Local Abbreviation rendered :=
  (render_pdf (failing_browser BrowserClose) doc
     (HTML_FILE sample_base) (PDF_FILE sample_base) (snd built)).

(** [browser.close()] fails on the small guide: [main] raises and the
    intermediate file stays, no [--html] being given. *)
Lemma failed_rendering_skips_cleanup_witness :
  ∃ w',
    main sample_markdown (failing_browser BrowserClose) sample_base
      ["build.py"] sample_world
    = (Raise (PlaywrightError BrowserClose), w')
    ∧ is_Some (fs w' !! HTML_FILE sample_base).
Proof.
  assert (fst made = Ok tt) as H0 by (vm_compute; reflexivity).
  assert (fst built = Ok doc) as H1 by (vm_compute; reflexivity).
  assert (fst rendered = Raise (PlaywrightError BrowserClose)) as H2
    by (vm_compute; reflexivity).
  destruct (failed_rendering_skips_cleanup sample_markdown
              (failing_browser BrowserClose) sample_base ["build.py"] sample_world
              _ _ _ _ _ (run_pair _ _ _ H0) (run_pair _ _ _ H1) (run_pair _ _ _ H2))
    as (Hmain & _ & Hhtml).
  exists (snd rendered). split; [exact Hmain|].
  rewrite Hhtml.
  - exists (TextFile doc). reflexivity.
  - exists BrowserClose. reflexivity.
Defined.

End FailedRendering.

(** A file named [export] is in the way: [main] raises and has changed
    nothing. *)
Lemma output_directory_cannot_be_made_witness :
  fs blocked_world !! OUTPUT_DIR sample_base = Some (TextFile "notes")
  ∧ ∃ e, main sample_markdown sample_browser sample_base ["build.py"] blocked_world
         = (Raise e, blocked_world).
Proof.
  assert (fs blocked_world !! OUTPUT_DIR sample_base = Some (TextFile "notes")) as H
    by (vm_compute; reflexivity).
  split; [exact H|].
  destruct (output_directory_cannot_be_made sample_markdown sample_browser
              sample_base ["build.py"] blocked_world) as (e & Hmain & _).
  - left. exists (TextFile "notes"). split; [exact H | discriminate].
  - exists e. exact Hmain.
Defined.

(** The small guide is built twice, by two browsers that stamp what they
    print: the second build goes through and its PDF is not the PDF of the
    first. *)
Lemma rebuilding_repeats_the_build_witness :
  ∃ w1 w2,
    main sample_markdown (stamping_browser "Tuesday") sample_base ["build.py"]
      sample_world = (Ok tt, w1)
    ∧ main sample_markdown (stamping_browser "Friday") sample_base ["build.py"] w1
      = (Ok tt, w2)
    ∧ fs w2 !! PDF_FILE sample_base ≠ fs w1 !! PDF_FILE sample_base
    ∧ fs w2 !! STYLE_FILE sample_base = fs w1 !! STYLE_FILE sample_base.
Proof.
  assert (readable (fs sample_world) (CONTENT_DIR sample_base) CHAPTERS) as H1.
  { repeat (constructor;
      [first [left; vm_compute; reflexivity
             | right; eexists; vm_compute; reflexivity]|]).
    constructor. }
  assert (readable (fs sample_world) (EXERCISES_DIR sample_base) EXERCISES) as H2.
  { repeat (constructor;
      [first [left; vm_compute; reflexivity
             | right; eexists; vm_compute; reflexivity]|]).
    constructor. }
  assert (fs sample_world !! HTML_FILE sample_base = None) as H3
    by (vm_compute; reflexivity).
  assert (fs sample_world !! PDF_FILE sample_base = None) as H4
    by (vm_compute; reflexivity).
  destruct (rebuilding_repeats_the_build sample_markdown sample_base
              (stamping_browser "Tuesday") (stamping_browser "Friday")
              ["build.py"] sample_world "body { margin: 0 }")
    as (w1 & w2 & Hmain1 & Hmain2 & Hpdf1 & Hpdf2 & Hsame).
  - reflexivity.
  - reflexivity.
  - vm_compute. reflexivity.
  - left. vm_compute. reflexivity.
  - vm_compute. reflexivity.
  - exact H1.
  - exact H2.
  - rewrite H3. discriminate.
  - rewrite H4. discriminate.
  - exists w1, w2. split_and!; [exact Hmain1 | exact Hmain2 | |].
    + rewrite Hpdf1, Hpdf2. discriminate.
    + apply Hsame. vm_compute. discriminate.
Defined.
